(** * SFGraphing: the plot data container and its multi-series builder

    A shallow embedding of [include/SFGraphing/PlotDataSet.h]: the data
    constructor of [PlotDataSet] and the static template
    [PlotDataSet::MultiPlotDatSet], with the properties the specification
    states about them.

    Modelling conventions:
    - [std::vector<T>] is a [list T]; [v.size()] is [length v].  A vector
      never holds more than [SIZE_MAX] elements, so [size_t] values are
      kept as [nat] without wrap-around.
    - [v[i]] is unchecked in C++: read or written out of range it is
      undefined behaviour.  The model makes that an outcome of its own,
      [Undefined OutOfRange], instead of silently returning a default.
    - [int] is the 32-bit signed integer: the [int] loop counters run over
      [nat] but overflow past [INT_MAX] is the outcome
      [Undefined SignedOverflow], and the narrowing [int labels_sz =
      labels.size()] wraps modulo 2^32.
    - [float] is IEEE-754 binary32, as [spec_float] with precision 24 and
      [emax] 128; the only float operation of the header is the conversion
      of the input elements when the vectors are copied.
    - [throw std::runtime_error(m)] is the outcome [Thrown m];
      [std::cerr << m << std::endl; exit(1)] is [Exited (m ++ newline) 1]. *)

From Stdlib Require Import ZArith Ascii Floats.SpecFloat.
From stdpp Require Import base tactics option list strings.


(** ** Outcomes of a call *)

Inductive UB : Type :=
  | OutOfRange        (* operator[] past the end of a std::vector *)
  | SignedOverflow.   (* ++i on an int holding INT_MAX *)

Inductive outcome (A : Type) : Type :=
  | Returned (a : A)
  | Thrown (what : string)
  | Exited (cerr : string) (status : Z)
  | Undefined (ub : UB).

Arguments Returned {A} a.
Arguments Thrown {A} what.
Arguments Exited {A} cerr status.
Arguments Undefined {A} ub.

#[global] Instance outcome_ret : MRet outcome := @Returned.

#[global] Instance outcome_bind : MBind outcome := fun A B k m =>
  match m with
  | Returned a => k a
  | Thrown w => Thrown w
  | Exited e s => Exited e s
  | Undefined u => Undefined u
  end.

(** ** std::vector *)

(** [v[i]] used as an rvalue. *)
Definition at_ {A} (v : list A) (i : nat) : outcome A :=
  match v !! i with
  | Some a => Returned a
  | None => Undefined OutOfRange
  end.

(** [v[i] = a]. *)
Definition assign {A} (v : list A) (i : nat) (a : A) : outcome (list A) :=
  if decide (i < length v) then Returned (<[i:=a]> v) else Undefined OutOfRange.

(** ** Integers *)

Definition INT_MAX : Z := 2147483647.

(** The value of [int n = s] for a [size_t] [s]: reduction modulo 2^32 into
    the signed range. *)
Definition int_of_size_t (s : nat) : Z :=
  ((Z.of_nat s + 2 ^ 31) mod 2 ^ 32 - 2 ^ 31)%Z.

(** ** Loops *)

(** The iterations [i, i+1, ..., i+n-1] of a loop body over a state. *)
Fixpoint iterate {St} (body : nat → St → outcome St) (i n : nat) (s : St) : outcome St :=
  match n with
  | O => Returned s
  | S n' => s' ← body i s; iterate body (S i) n' s'
  end.

(** [for (size_t i = 0; i < n; ++i) body] *)
Definition for_size_t {St} (n : nat) (body : nat → St → outcome St) (s : St) : outcome St :=
  iterate body 0 n s.

(** [for (int i = 0; i < n; ++i) body] with [n] a [size_t]: the comparison
    converts [i] to [size_t], so for [n > INT_MAX] the counter reaches
    [INT_MAX] and the increment that follows overflows. *)
Definition for_int {St} (n : nat) (body : nat → St → outcome St) (s : St) : outcome St :=
  if decide (Z.of_nat n ≤ INT_MAX)%Z then iterate body 0 n s
  else _ ← iterate body 0 (Z.to_nat (INT_MAX + 1)) s; Undefined SignedOverflow.

(** ** Numbers *)

(** binary32 *)
Definition float : Type := spec_float.

(** [float()], the value of the elements of [std::vector<float>(n)]. *)
Definition float_zero : float := S754_zero false.

Definition int : Type := Z.

(** The element types the templates are instantiated with: whatever
    converts to [float]. *)
Class Numeric (T : Type) := to_float : T → float.

#[global] Instance float_Numeric : Numeric float := fun f => f.

(** Integer to binary32, rounding to nearest, ties to even. *)
#[global] Instance int_Numeric : Numeric int := fun z => binary_normalize 24 128 z 0 false.

(** ** The data set *)

Inductive PlottingType : Type := POINTS | LINE | BARS.

(** sf::Color: the four 8-bit channels r, g, b, a. *)
Record Color : Type := { col_r : N; col_g : N; col_b : N; col_a : N }.

Record PlotDataSet : Type := {
  _yValues : list float;
  _xValues : list float;
  _color : Color;
  _label : string;
  _pType : PlottingType
}.

Definition endl : string := String "010"%char EmptyString.

(** The data constructor
    [PlotDataSet(xValues, yValues, color, label, type)]. *)
Definition PlotDataSet_ctor {T_x T_y} `{Numeric T_x, Numeric T_y}
    (xValues : list T_x) (yValues : list T_y)
    (color : Color) (label : string) (type : PlottingType) : outcome PlotDataSet :=
  let _xValues := to_float <$> xValues in
  let _yValues := to_float <$> yValues in
  if decide (length _xValues ≠ length _yValues) then
    Exited ("Incompatible data sizes" +:+ endl) 1
  else
    Returned {| _yValues := _yValues; _xValues := _xValues;
                _color := color; _label := label; _pType := type |}.

(** Modelled from the spec: the body of [GetDataLength] is not in the
    header, only its declaration, which documents it as returning
    [_xValues.size()]; the specification's [length()] is the current point
    count. *)
Definition GetDataLength (d : PlotDataSet) : nat := length (_xValues d).

(** Modelled from the spec: the body of [GetDataValue] is not in the
    header, only its declaration, which documents it as returning the value
    pair at [i]; the specification's [pointAt(i)] is the (x,y) pair at
    index [i] and is undefined out of range. *)
Definition GetDataValue (d : PlotDataSet) (i : nat) : outcome (float * float) :=
  x ← at_ (_xValues d) i; y ← at_ (_yValues d) i; mret (x, y).

(** ** The multi-series builder *)

(** The argument of [MultiPlotDatSet] is a [std::vector<T>] whose element
    type [T] is either a number or a container of numbers; the template
    tells the two apart with [is_iterable<T>]. *)
Inductive values (T : Type) : Type :=
  | Flat (v : list T)
  | Nested (v : list (list T)).

Arguments Flat {T} v.
Arguments Nested {T} v.

(** [is_iterable<T>] for the element type of the vector. *)
Definition is_iterable {T} (v : values T) : bool :=
  match v with
  | Flat _ => false
  | Nested _ => true
  end.

(** [data[i][j] = v] on a vector of vectors. *)
Definition assign2 {A} (data : list (list A)) (i j : nat) (v : A) : outcome (list (list A)) :=
  row ← at_ data i; row ← assign row j v; assign data i row.

(** [i < labels_sz ? labels[i] : ""] *)
Definition label_or_empty (in_range : bool) (labels : list string) (i : nat) : outcome string :=
  if in_range then at_ labels i else mret "".

Section MultiPlot.

(** The metadata the default constructor [PlotDataSet()] gives a data
    set; its body is not in the header. *)
Variables (default_color : Color) (default_label : string)
          (default_pType : PlottingType).

(** Modelled from the spec: the body of the default constructor
    [PlotDataSet()] is not in the header, only its declaration, which
    documents it as creating empty data; the specification has it
    construct a container with no points and default metadata. *)
Definition PlotDataSet_default : PlotDataSet :=
  {| _yValues := []; _xValues := [];
     _color := default_color; _label := default_label; _pType := default_pType |}.

Context {T_x T_y : Type} `{!Numeric T_x, !Numeric T_y}.

(** Lines 76-79: only one dataset. *)
Definition one_dataset (xValues : list T_x) (yValues : list T_y)
    (color : Color) (type : PlottingType) (labels : list string)
    : outcome (list PlotDataSet) :=
  label ← label_or_empty (bool_decide (labels ≠ [])) labels 0;
  d ← PlotDataSet_ctor xValues yValues color label type;
  mret [d].

(** Lines 80-101: several Y values for each X value. *)
Definition several_Y (xValues : list T_x) (yValues : list (list T_y))
    (color : Color) (type : PlottingType) (labels : list string)
    : outcome (list PlotDataSet) :=
  let sz := length xValues in
  y0 ← at_ yValues 0;
  let internal_sz := length y0 in
  if decide (sz = 0) then Thrown "Empty y value data" else
  let labels_sz := length labels in
  let out := replicate sz PlotDataSet_default in
  let data : list (list float) := replicate internal_sz [] in
  data ← for_size_t internal_sz (λ i data,
            data ← assign data i (replicate sz float_zero);
            for_size_t sz (λ j data,
               yj ← at_ yValues j; v ← at_ yj i;
               assign2 data i j (to_float v)) data) data;
  for_int internal_sz (λ i out,
     row ← at_ data i;
     label ← label_or_empty (bool_decide (i < labels_sz)) labels i;
     d ← PlotDataSet_ctor xValues row color label type;
     assign out i d) out.

(** Lines 102-128: several X and Y values. *)
Definition several_XY (xValues : list (list T_x)) (yValues : list (list T_y))
    (color : Color) (type : PlottingType) (labels : list string)
    : outcome (list PlotDataSet) :=
  let sz := length xValues in
  y0 ← at_ yValues 0;
  let internal_sz := length y0 in
  if decide (length yValues ≠ sz) then
    Thrown ("Mismatching dataset sizes for mutliplot, set dimension of X"
            +:+ "must be one, or match set dimension of Y")
  else
  let labels_sz := int_of_size_t (length labels) in
  let out := replicate sz PlotDataSet_default in
  let xdata : list (list float) := replicate internal_sz [] in
  let ydata : list (list float) := replicate internal_sz [] in
  '(xdata, ydata) ← for_size_t internal_sz (λ i '(xdata, ydata),
            xdata ← assign xdata i (replicate sz float_zero);
            ydata ← assign ydata i (replicate sz float_zero);
            for_size_t sz (λ j '(xdata, ydata),
               xj ← at_ xValues j; xv ← at_ xj i;
               xdata ← assign2 xdata i j (to_float xv);
               yj ← at_ yValues j; yv ← at_ yj i;
               ydata ← assign2 ydata i j (to_float yv);
               mret (xdata, ydata)) (xdata, ydata)) (xdata, ydata);
  for_int sz (λ i out,
     xrow ← at_ xdata i;
     yrow ← at_ ydata i;
     label ← label_or_empty (bool_decide (Z.of_nat i < labels_sz)%Z) labels i;
     d ← PlotDataSet_ctor xrow yrow color label type;
     assign out i d) out.

(** [PlotDataSet::MultiPlotDatSet]: the three [if constexpr] branches,
    chosen by [is_iterable] of the two element types, and the final
    [return {}]. *)
Definition MultiPlotDatSet (xValues : values T_x) (yValues : values T_y)
    (color : Color) (type : PlottingType) (labels : list string)
    : outcome (list PlotDataSet) :=
  match yValues, xValues with
  | Flat yValues, Flat xValues => one_dataset xValues yValues color type labels
  | Nested yValues, Flat xValues => several_Y xValues yValues color type labels
  | Nested yValues, Nested xValues => several_XY xValues yValues color type labels
  | Flat _, Nested _ => mret []
  end.

End MultiPlot.

(** ** What a series is

    The value the source reads with [values[n][s]], converted to float,
    where both accesses are in range. *)
Definition cell {T} `{!Numeric T} (values : list (list T)) (n s : nat) : option float :=
  row ← values !! n; to_float <$> row !! s.

(** Row [s] of the transposed table [data] holds the [N] values
    [values[n][s]]. *)
Definition column_of {T} `{!Numeric T} (values : list (list T)) (N : nat)
    (data : list (list float)) (s : nat) : Prop :=
  ∃ row, data !! s = Some row ∧ length row = N ∧
         ∀ n, n < N → row !! n = cell values n s.

(** The state of the transposed table while the inner loop (over the
    samples [j]) fills row [i]: the other rows are those of [data0], row
    [i] has its [N] slots and the first [j] hold their values. *)
Definition filling {T} `{!Numeric T} (values : list (list T)) (N : nat)
    (data0 : list (list float)) (i j : nat) (data : list (list float)) : Prop :=
  length data = length data0 ∧
  (∀ s, s ≠ i → data !! s = data0 !! s) ∧
  ∃ row, data !! i = Some row ∧ length row = N ∧
         ∀ n, n < j → row !! n = cell values n i.

(** The state of the transposed table after [i] rounds of the outer loop
    (over the series). *)
Definition transposed_upto {T} `{!Numeric T} (values : list (list T)) (N M : nat)
    (i : nat) (data : list (list float)) : Prop :=
  length data = M ∧ ∀ s, s < i → column_of values N data s.

(** Container [d] is series [s] of a shared x axis and a table of y
    samples: the untouched (converted) xValues, the values
    [yValues[n][s]] for every sample [n] below the length of the x axis,
    the color and type of the call and the positional label. *)
Definition is_series {T_x T_y} `{!Numeric T_x, !Numeric T_y}
    (xValues : list T_x) (yValues : list (list T_y))
    (color : Color) (type : PlottingType) (labels : list string)
    (s : nat) (d : PlotDataSet) : Prop :=
  _xValues d = to_float <$> xValues ∧
  length (_yValues d) = length xValues ∧
  (∀ n, n < length xValues → _yValues d !! n = cell yValues n s) ∧
  _color d = color ∧
  _label d = default "" (labels !! s) ∧
  _pType d = type.

(** The state of [out] after [i] rounds of the loop of lines 97-99: the
    first [i] entries are the series, the others still hold the
    default-constructed data set [dflt] the vector was created with. *)
Definition assigned_upto {T_x T_y} `{!Numeric T_x, !Numeric T_y}
    (dflt : PlotDataSet) (xValues : list T_x) (yValues : list (list T_y))
    (color : Color) (type : PlottingType) (labels : list string)
    (i : nat) (out : list PlotDataSet) : Prop :=
  length out = length xValues ∧
  (∀ s, s < i → ∃ d, out !! s = Some d ∧
                     is_series xValues yValues color type labels s d) ∧
  (∀ s, i ≤ s < length xValues → out !! s = Some dflt).

(** Container [d] is series [s] of two tables of samples: the values
    [xValues[n][s]] and [yValues[n][s]] for every sample [n], the color
    and type of the call and the positional label. *)
Definition is_paired_series {T_x T_y} `{!Numeric T_x, !Numeric T_y}
    (xValues : list (list T_x)) (yValues : list (list T_y))
    (color : Color) (type : PlottingType) (labels : list string)
    (s : nat) (d : PlotDataSet) : Prop :=
  length (_xValues d) = length xValues ∧
  (∀ n, n < length xValues → _xValues d !! n = cell xValues n s) ∧
  length (_yValues d) = length xValues ∧
  (∀ n, n < length xValues → _yValues d !! n = cell yValues n s) ∧
  _color d = color ∧
  _label d = default "" (labels !! s) ∧
  _pType d = type.

(** The state of [out] after [i] rounds of the loop of lines 124-126. *)
Definition paired_upto {T_x T_y} `{!Numeric T_x, !Numeric T_y}
    (dflt : PlotDataSet) (xValues : list (list T_x)) (yValues : list (list T_y))
    (color : Color) (type : PlottingType) (labels : list string)
    (i : nat) (out : list PlotDataSet) : Prop :=
  length out = length xValues ∧
  (∀ s, s < i → ∃ d, out !! s = Some d ∧
                     is_paired_series xValues yValues color type labels s d) ∧
  (∀ s, i ≤ s < length xValues → out !! s = Some dflt).

(** ** Properties *)

(** *** The outcome monad and the vector accesses *)

Lemma at_lookup {A} (v : list A) (i : nat) (x : A) :
  v !! i = Some x → at_ v i = Returned x.
Proof. unfold at_. by intros ->. Qed.

Lemma at_out_of_range {A} (v : list A) (i : nat) :
  length v ≤ i → at_ v i = Undefined OutOfRange.
Proof. intros Hi. unfold at_. by rewrite (lookup_ge_None_2 v i Hi). Qed.

Lemma assign_in_range {A} (v : list A) (i : nat) (x : A) :
  i < length v → assign v i x = Returned (<[i:=x]> v).
Proof. intros Hi. unfold assign. by rewrite decide_True. Qed.

Lemma assign_out_of_range {A} (v : list A) (i : nat) (x : A) :
  length v ≤ i → assign v i x = Undefined OutOfRange.
Proof. intros Hi. unfold assign. rewrite decide_False; [done | lia]. Qed.

(** *** Loops *)

Lemma iterate_add {St} (body : nat → St → outcome St) (i n m : nat) (s : St) :
  iterate body i (n + m) s = iterate body i n s ≫= iterate body (i + n) m.
Proof.
  revert i s. induction n as [| n IH]; intros i s; simpl.
  - by rewrite Nat.add_0_r.
  - destruct (body i s) as [s' | | |]; simpl; [| done ..].
    rewrite IH. by replace (S i + n) with (i + S n) by lia.
Qed.

(** A loop whose body keeps an invariant returns, in a state where the
    invariant holds at the final index. *)
Lemma iterate_inv {St} (P : nat → St → Prop) (body : nat → St → outcome St)
    (i n : nat) (s : St) :
  P i s →
  (∀ k s, i ≤ k < i + n → P k s → ∃ s', body k s = Returned s' ∧ P (S k) s') →
  ∃ s', iterate body i n s = Returned s' ∧ P (i + n) s'.
Proof.
  revert i s. induction n as [| n IH]; intros i s Hs Hbody; simpl.
  - exists s. by rewrite Nat.add_0_r.
  - destruct (Hbody i s ltac:(lia) Hs) as (s' & -> & Hs'). simpl.
    destruct (IH (S i) s' Hs') as (s'' & -> & Hs'').
    + intros k t Hk. apply Hbody. lia.
    + exists s''. split; [done |]. by replace (i + S n) with (S i + n) by lia.
Qed.

(** A loop that keeps an invariant for [n] iterations and whose body is
    an out-of-range access at index [i + n] under the invariant, run for
    more than [n] iterations. *)
Lemma iterate_out_of_range {St} (P : nat → St → Prop) (body : nat → St → outcome St)
    (i n m : nat) (s : St) :
  P i s →
  (∀ k s, i ≤ k < i + n → P k s → ∃ s', body k s = Returned s' ∧ P (S k) s') →
  (∀ s, P (i + n) s → body (i + n) s = Undefined OutOfRange) →
  n < m →
  iterate body i m s = Undefined OutOfRange.
Proof.
  intros Hs Hbody Hlast Hnm.
  replace m with (n + S (m - S n)) by lia. rewrite iterate_add.
  destruct (iterate_inv P body i n s Hs Hbody) as (s' & -> & Hs').
  simpl. by rewrite (Hlast s' Hs').
Qed.

Lemma for_int_in_range {St} (body : nat → St → outcome St) (n : nat) (s : St) :
  (Z.of_nat n ≤ INT_MAX)%Z → for_int n body s = iterate body 0 n s.
Proof. intros Hn. unfold for_int. by rewrite decide_True. Qed.

Lemma label_or_empty_positional (labels : list string) (i : nat) :
  label_or_empty (bool_decide (i < length labels)) labels i
    = Returned (default "" (labels !! i)).
Proof.
  unfold label_or_empty. case_bool_decide as Hi.
  - destruct (lookup_lt_is_Some_2 labels i Hi) as [l Hl].
    by rewrite (at_lookup labels i l Hl), Hl.
  - by rewrite lookup_ge_None_2 by lia.
Qed.

(** *** The data constructor *)

Lemma PlotDataSet_ctor_Returned {T_x T_y} `{Numeric T_x, Numeric T_y}
    (X : list T_x) (Y : list T_y) color label type :
  length X = length Y →
  PlotDataSet_ctor X Y color label type =
    Returned {| _yValues := to_float <$> Y; _xValues := to_float <$> X;
                _color := color; _label := label; _pType := type |}.
Proof.
  intros Hlen. unfold PlotDataSet_ctor.
  rewrite decide_False; [done |]. rewrite !length_fmap. by intros [].
Qed.

Lemma PlotDataSet_ctor_invariant {T_x T_y} `{Numeric T_x, Numeric T_y}
    (X : list T_x) (Y : list T_y) color label type d :
  PlotDataSet_ctor X Y color label type = Returned d →
  length (_xValues d) = length (_yValues d).
Proof.
  unfold PlotDataSet_ctor. case_decide as Hne; [done |].
  intros [= <-]. done.
Qed.

(** C7: for equal-length numeric sequences X and Y the data constructor
    succeeds, the container it returns has [GetDataLength] equal to |X| and
    to |Y|, and at every index i below |X| [GetDataValue] returns the pair
    of X[i] and Y[i] as converted to float. *)
Theorem PlotDataSet_ctor_points {T_x T_y} `{Numeric T_x, Numeric T_y}
    (X : list T_x) (Y : list T_y) color label type :
  length X = length Y →
  ∃ d, PlotDataSet_ctor X Y color label type = Returned d ∧
       GetDataLength d = length X ∧ GetDataLength d = length Y ∧
       ∀ i, i < length X →
         ∃ x y, X !! i = Some x ∧ Y !! i = Some y ∧
                GetDataValue d i = Returned (to_float x, to_float y).
Proof.
  intros Hlen. eexists. split; [by apply PlotDataSet_ctor_Returned |].
  unfold GetDataLength, GetDataValue. simpl. rewrite length_fmap.
  split; [done |]. split; [done |]. intros i Hi.
  destruct (lookup_lt_is_Some_2 X i Hi) as [x Hx].
  destruct (lookup_lt_is_Some_2 Y i ltac:(lia)) as [y Hy].
  exists x, y. split; [done |]. split; [done |].
  rewrite (at_lookup (to_float <$> X) i (to_float x)) by (by rewrite list_lookup_fmap, Hx).
  rewrite (at_lookup (to_float <$> Y) i (to_float y)) by (by rewrite list_lookup_fmap, Hy).
  done.
Qed.

Lemma PlotDataSet_ctor_points_witness :
  ∃ d, PlotDataSet_ctor [1; 2; 3]%Z [10; 11; 12]%Z
         {| col_r := 255; col_g := 0; col_b := 0; col_a := 255 |} "s" LINE = Returned d ∧
       GetDataLength d = 3 ∧ GetDataLength d = 3 ∧
       ∀ i, i < 3 →
         ∃ x y, [1; 2; 3]%Z !! i = Some x ∧ [10; 11; 12]%Z !! i = Some y ∧
                GetDataValue d i = Returned (to_float x, to_float y).
Proof.
  apply (PlotDataSet_ctor_points (T_x := int) (T_y := int) [1; 2; 3]%Z [10; 11; 12]%Z).
  reflexivity.
Defined.

(** C5: constructing a data set from sequences of differing lengths
    prints the diagnostic and exits with status 1, and whatever the
    constructor returns has x and y vectors of one length. *)
Theorem PlotDataSet_ctor_mismatch_exits {T_x T_y} `{Numeric T_x, Numeric T_y}
    (X : list T_x) (Y : list T_y) color label type :
  length X ≠ length Y →
  PlotDataSet_ctor X Y color label type = Exited ("Incompatible data sizes" +:+ endl) 1 ∧
  ∀ (X' : list T_x) (Y' : list T_y) color' label' type' d,
    PlotDataSet_ctor X' Y' color' label' type' = Returned d →
    length (_xValues d) = length (_yValues d).
Proof.
  intros Hne. split.
  - unfold PlotDataSet_ctor. rewrite decide_True; [done |]. by rewrite !length_fmap.
  - intros X' Y' c' l' t' d. apply PlotDataSet_ctor_invariant.
Qed.

Lemma PlotDataSet_ctor_mismatch_exits_witness :
  PlotDataSet_ctor [1; 2; 3]%Z [10; 11]%Z
    {| col_r := 255; col_g := 0; col_b := 0; col_a := 255 |} "s" LINE
    = Exited ("Incompatible data sizes" +:+ endl) 1 ∧
  ∀ (X' : list int) (Y' : list int) color' label' type' d,
    PlotDataSet_ctor X' Y' color' label' type' = Returned d →
    length (_xValues d) = length (_yValues d).
Proof.
  apply (PlotDataSet_ctor_mismatch_exits (T_x := int) (T_y := int) [1; 2; 3]%Z [10; 11]%Z).
  simpl. lia.
Defined.

(** *** The builder: dispatch, and the checks ahead of the loops *)

Section MultiPlot_properties.

Variables (default_color : Color) (default_label : string)
          (default_pType : PlottingType).
Context {T_x T_y : Type} `{!Numeric T_x, !Numeric T_y}.

Local Abbreviation MultiPlotDatSet :=
  (MultiPlotDatSet default_color default_label default_pType).
Local Abbreviation several_Y :=
  (several_Y default_color default_label default_pType).
Local Abbreviation several_XY :=
  (several_XY default_color default_label default_pType).

(** The fall-through [return {}] is reached exactly when no
    [if constexpr] condition holds: x iterable, y not. *)
Lemma MultiPlotDatSet_fall_through (xValues : values T_x) (yValues : values T_y)
    color type labels :
  is_iterable xValues = true → is_iterable yValues = false →
  MultiPlotDatSet xValues yValues color type labels = Returned [].
Proof. by destruct xValues, yValues. Qed.

(** C6: with flat x and flat y of one length the builder returns exactly
    one container, which pairs the converted xValues with the converted
    yValues and carries labels[0] when labels is non-empty and the empty
    string otherwise. *)
Theorem MultiPlotDatSet_flat_flat (xValues : list T_x) (yValues : list T_y)
    color type labels :
  length xValues = length yValues →
  MultiPlotDatSet (Flat xValues) (Flat yValues) color type labels =
    Returned [ {| _yValues := to_float <$> yValues;
                  _xValues := to_float <$> xValues;
                  _color := color;
                  _label := match labels with [] => "" | l0 :: _ => l0 end;
                  _pType := type |} ].
Proof.
  intros Hlen. simpl. unfold one_dataset.
  destruct labels as [| l0 labels']; simpl;
    by rewrite PlotDataSet_ctor_Returned.
Qed.

(** C8: with nested x and flat y the builder returns the empty
    collection, whatever the data. *)
Theorem MultiPlotDatSet_nested_flat (xValues : list (list T_x)) (yValues : list T_y)
    color type labels :
  MultiPlotDatSet (Nested xValues) (Flat yValues) color type labels = Returned [].
Proof. reflexivity. Qed.

(** C9: in both nested paths [yValues[0]] is read before any check, so
    with an empty nested yValues the call is an out-of-range access,
    whatever xValues is (empty included), and no error is thrown. *)
Theorem MultiPlotDatSet_empty_nested_y (xValues : values T_x) color type labels :
  MultiPlotDatSet xValues (Nested ([] : list (list T_y))) color type labels
    = Undefined OutOfRange ∧
  ∀ what, MultiPlotDatSet xValues (Nested ([] : list (list T_y))) color type labels
    ≠ Thrown what.
Proof.
  assert (MultiPlotDatSet xValues (Nested ([] : list (list T_y))) color type labels
          = Undefined OutOfRange) as ->; [by destruct xValues | done].
Qed.

(** With a non-empty nested yValues the empty x axis is reported by the
    exception. *)
Lemma several_Y_empty_x_throws (y0 : list T_y) (yValues : list (list T_y))
    color type labels :
  MultiPlotDatSet (Flat ([] : list T_x)) (Nested (y0 :: yValues)) color type labels
    = Thrown "Empty y value data".
Proof. reflexivity. Qed.

(** With a non-empty nested yValues a difference of the outer lengths is
    reported by the exception. *)
Lemma several_XY_mismatch_throws (xValues : list (list T_x))
    (y0 : list T_y) (yValues : list (list T_y)) color type labels :
  length xValues ≠ length (y0 :: yValues) →
  MultiPlotDatSet (Nested xValues) (Nested (y0 :: yValues)) color type labels
    = Thrown "Mismatching dataset sizes for mutliplot, set dimension of Xmust be one, or match set dimension of Y".
Proof.
  intros Hne. simpl. unfold several_XY. simpl.
  rewrite decide_True; [done | by intros E; apply Hne].
Qed.

End MultiPlot_properties.

Lemma MultiPlotDatSet_flat_flat_witness :
  MultiPlotDatSet {| col_r := 255; col_g := 255; col_b := 255; col_a := 255 |} "" POINTS
    (Flat [1; 2; 3]%Z) (Flat [10; 11; 12]%Z)
    {| col_r := 255; col_g := 0; col_b := 0; col_a := 255 |} BARS ["first"; "second"]
  = Returned [ {| _yValues := to_float <$> [10; 11; 12]%Z;
                  _xValues := to_float <$> [1; 2; 3]%Z;
                  _color := {| col_r := 255; col_g := 0; col_b := 0; col_a := 255 |};
                  _label := "first";
                  _pType := BARS |} ].
Proof.
  apply (MultiPlotDatSet_flat_flat
           {| col_r := 255; col_g := 255; col_b := 255; col_a := 255 |} "" POINTS
           (T_x := int) (T_y := int) [1; 2; 3]%Z [10; 11; 12]%Z).
  reflexivity.
Defined.

(** *** The transposition loops *)

Lemma assign2_in_range {A} (data : list (list A)) (row : list A) (i j : nat) (v : A) :
  data !! i = Some row → j < length row →
  assign2 data i j v = Returned (<[i := <[j := v]> row]> data).
Proof.
  intros Hrow Hj. unfold assign2. rewrite (at_lookup data i row Hrow). simpl.
  rewrite assign_in_range by done. simpl.
  rewrite assign_in_range; [done |]. by apply lookup_lt_is_Some_1.
Qed.

Section Transpose.

Context {T : Type} `{!Numeric T}.
Variables (values : list (list T)) (N M : nat).

(** The table holds at least [N] samples of at least [M] values. *)
Hypothesis cells : ∀ n s, n < N → s < M → is_Some (cell values n s).

Lemma filling_start (i : nat) (data0 : list (list float)) :
  i < length data0 →
  filling values N (<[i := replicate N float_zero]> data0) i 0
    (<[i := replicate N float_zero]> data0).
Proof.
  intros Hi. split; [done |]. split; [done |].
  exists (replicate N float_zero). rewrite list_lookup_insert_eq by done.
  rewrite length_replicate. repeat split. lia.
Qed.

(** One round of the inner loop: both reads are in range and the write
    extends the filled part of row [i]. *)
Lemma filling_step (i j : nat) (data0 data : list (list float)) :
  i < M → j < N → length data0 = M → filling values N data0 i j data →
  ∃ yj w data',
    values !! j = Some yj ∧ yj !! i = Some w ∧
    assign2 data i j (to_float w) = Returned data' ∧
    filling values N data0 i (S j) data'.
Proof.
  intros Hi Hj Hdata0 (Hlen & Hothers & row & Hrow & Hrowlen & Hcells).
  destruct (cells j i Hj Hi) as [v Hv]. unfold cell in Hv.
  destruct (values !! j) as [yj |] eqn:Hyj; [| done]. simpl in Hv.
  destruct (yj !! i) as [w |] eqn:Hw; [| done]. injection Hv as <-.
  exists yj, w, (<[i := <[j := to_float w]> row]> data).
  split; [done |]. split; [done |].
  split; [apply assign2_in_range; [done | lia] |].
  split; [by rewrite length_insert |]. split.
  - intros s Hs. by rewrite list_lookup_insert_ne, Hothers.
  - exists (<[j := to_float w]> row). rewrite list_lookup_insert_eq by lia.
    rewrite length_insert. repeat split; [done .. |].
    intros n Hn. destruct (decide (n = j)) as [-> | Hne].
    + rewrite list_lookup_insert_eq by lia. unfold cell. by rewrite Hyj; simpl; rewrite Hw.
    + rewrite list_lookup_insert_ne by done. apply Hcells. lia.
Qed.

(** A row filled to the end is a column of the table; with it the outer
    loop has one more series. *)
Lemma transposed_step (i : nat) (data0 data : list (list float)) :
  i < M → transposed_upto values N M i data0 →
  filling values N (<[i := replicate N float_zero]> data0) i N data →
  transposed_upto values N M (S i) data.
Proof.
  intros Hi [Hlen0 Hcols] (Hlen & Hothers & row & Hrow & Hrowlen & Hcells).
  split; [by rewrite Hlen, length_insert |].
  intros s Hs. destruct (decide (s = i)) as [-> | Hne]; [by exists row |].
  destruct (Hcols s ltac:(lia)) as (row' & Hrow' & Hrest).
  exists row'. split; [| done]. by rewrite Hothers, list_lookup_insert_ne.
Qed.

Lemma transposed_start : transposed_upto values N M 0 (replicate M []).
Proof. split; [by rewrite length_replicate | lia]. Qed.

(** The inner loop of lines 92-94. *)
Lemma transpose_column (i : nat) (data0 : list (list float)) :
  i < M → length data0 = M → filling values N data0 i 0 data0 →
  ∃ data,
    for_size_t N (λ j data, yj ← at_ values j; v ← at_ yj i;
                            assign2 data i j (to_float v)) data0 = Returned data ∧
    filling values N data0 i N data.
Proof.
  intros Hi Hdata0 Hstart. unfold for_size_t.
  apply (iterate_inv (filling values N data0 i)); [done |].
  intros j data [_ Hj] Hfill.
  destruct (filling_step i j data0 data) as (yj & w & data' & Hyj & Hw & Hassign & Hfill');
    [done .. |].
  exists data'. split; [| done].
  rewrite (at_lookup values j yj Hyj). simpl. by rewrite (at_lookup yj i w Hw).
Qed.

(** Lines 89-95: the table the scalar-nested path builds. *)
Lemma transpose_table :
  ∃ data,
    for_size_t M (λ i data,
      data ← assign data i (replicate N float_zero);
      for_size_t N (λ j data, yj ← at_ values j; v ← at_ yj i;
                              assign2 data i j (to_float v)) data)
      (replicate M []) = Returned data ∧
    transposed_upto values N M M data.
Proof.
  unfold for_size_t at 1.
  apply (iterate_inv (transposed_upto values N M)); [apply transposed_start |].
  intros i data [_ Hi] Hinv.
  rewrite assign_in_range by (destruct Hinv; lia). simpl.
  destruct (transpose_column i (<[i := replicate N float_zero]> data))
    as (data' & -> & Hfill);
    [done | by rewrite length_insert; destruct Hinv
     | by apply filling_start; destruct Hinv; lia |].
  exists data'. split; [done |]. by apply (transposed_step i data).
Qed.

End Transpose.

Section Transpose_two.

Context {T_x T_y : Type} `{!Numeric T_x, !Numeric T_y}.
Variables (xValues : list (list T_x)) (yValues : list (list T_y)) (N M : nat).

Hypothesis xcells : ∀ n s, n < N → s < M → is_Some (cell xValues n s).
Hypothesis ycells : ∀ n s, n < N → s < M → is_Some (cell yValues n s).

(** The inner loop of lines 118-121, on the two tables at once. *)
Lemma transpose_columns (i : nat) (xdata0 ydata0 : list (list float)) :
  i < M → length xdata0 = M → length ydata0 = M →
  filling xValues N xdata0 i 0 xdata0 → filling yValues N ydata0 i 0 ydata0 →
  ∃ xdata ydata,
    for_size_t N (λ j '(xdata, ydata),
        xj ← at_ xValues j; xv ← at_ xj i;
        xdata ← assign2 xdata i j (to_float xv);
        yj ← at_ yValues j; yv ← at_ yj i;
        ydata ← assign2 ydata i j (to_float yv);
        mret (xdata, ydata)) (xdata0, ydata0) = Returned (xdata, ydata) ∧
    filling xValues N xdata0 i N xdata ∧ filling yValues N ydata0 i N ydata.
Proof.
  intros Hi Hx0 Hy0 Hxstart Hystart. unfold for_size_t.
  destruct (iterate_inv
    (λ j '(xdata, ydata),
       filling xValues N xdata0 i j xdata ∧ filling yValues N ydata0 i j ydata)
    (λ j '(xdata, ydata),
        xj ← at_ xValues j; xv ← at_ xj i;
        xdata ← assign2 xdata i j (to_float xv);
        yj ← at_ yValues j; yv ← at_ yj i;
        ydata ← assign2 ydata i j (to_float yv);
        mret (xdata, ydata))
    0 N (xdata0, ydata0)) as ([xdata ydata] & Hrun & Hx & Hy); [done | |].
  - intros j [xdata ydata] [_ Hj] [Hx Hy].
    destruct (filling_step xValues N M xcells i j xdata0 xdata)
      as (xj & xv & xdata' & Hxj & Hxv & Hxassign & Hx'); [done .. |].
    destruct (filling_step yValues N M ycells i j ydata0 ydata)
      as (yj & yv & ydata' & Hyj & Hyv & Hyassign & Hy'); [done .. |].
    exists (xdata', ydata'). split; [| done].
    rewrite (at_lookup xValues j xj Hxj). simpl.
    rewrite (at_lookup xj i xv Hxv). simpl. rewrite Hxassign. simpl.
    rewrite (at_lookup yValues j yj Hyj). simpl.
    rewrite (at_lookup yj i yv Hyv). simpl. by rewrite Hyassign.
  - by exists xdata, ydata.
Qed.

(** Lines 113-122: the two tables the nested-nested path builds. *)
Lemma transpose_tables :
  ∃ xdata ydata,
    for_size_t M (λ i '(xdata, ydata),
      xdata ← assign xdata i (replicate N float_zero);
      ydata ← assign ydata i (replicate N float_zero);
      for_size_t N (λ j '(xdata, ydata),
          xj ← at_ xValues j; xv ← at_ xj i;
          xdata ← assign2 xdata i j (to_float xv);
          yj ← at_ yValues j; yv ← at_ yj i;
          ydata ← assign2 ydata i j (to_float yv);
          mret (xdata, ydata)) (xdata, ydata))
      (replicate M [], replicate M []) = Returned (xdata, ydata) ∧
    transposed_upto xValues N M M xdata ∧ transposed_upto yValues N M M ydata.
Proof.
  unfold for_size_t at 1.
  destruct (iterate_inv
    (λ i '(xdata, ydata),
       transposed_upto xValues N M i xdata ∧ transposed_upto yValues N M i ydata)
    (λ i '(xdata, ydata),
      xdata ← assign xdata i (replicate N float_zero);
      ydata ← assign ydata i (replicate N float_zero);
      for_size_t N (λ j '(xdata, ydata),
          xj ← at_ xValues j; xv ← at_ xj i;
          xdata ← assign2 xdata i j (to_float xv);
          yj ← at_ yValues j; yv ← at_ yj i;
          ydata ← assign2 ydata i j (to_float yv);
          mret (xdata, ydata)) (xdata, ydata))
    0 M (replicate M [], replicate M [])) as ([xdata ydata] & Hrun & Hx & Hy).
  - split; apply transposed_start.
  - intros i [xdata ydata] [_ Hi] [Hx Hy].
    assert (length xdata = M) as Hxlen by apply Hx.
    assert (length ydata = M) as Hylen by apply Hy.
    rewrite assign_in_range by lia. simpl.
    rewrite assign_in_range by lia. simpl.
    destruct (transpose_columns i (<[i := replicate N float_zero]> xdata)
                (<[i := replicate N float_zero]> ydata))
      as (xdata' & ydata' & -> & Hxfill & Hyfill);
      [done | by rewrite length_insert ..
       | apply filling_start; lia | apply filling_start; lia |].
    exists (xdata', ydata'). split; [done |].
    split; [by apply (transposed_step _ _ _ i xdata)
           | by apply (transposed_step _ _ _ i ydata)].
  - by exists xdata, ydata.
Qed.

End Transpose_two.

(** *** The scalar-nested path *)

Lemma fmap_to_float_float (row : list float) : to_float <$> row = row.
Proof. unfold to_float, float_Numeric. apply list_fmap_id. Qed.

Lemma cells_defined {T} `{!Numeric T} (values : list (list T)) (N M : nat) :
  N ≤ length values → Forall (λ row, M ≤ length row) (take N values) →
  ∀ n s, n < N → s < M → is_Some (cell values n s).
Proof.
  intros HN Hrows n s Hn Hs. unfold cell.
  destruct (lookup_lt_is_Some_2 values n ltac:(lia)) as [row Hrow].
  rewrite Hrow. simpl.
  assert (M ≤ length row) as Hlen.
  { apply (Forall_lookup_1 _ _ n row Hrows). by rewrite lookup_take_lt. }
  destruct (lookup_lt_is_Some_2 row s ltac:(lia)) as [v ->]. by eexists.
Qed.

Section Several_Y.

Variables (default_color : Color) (default_label : string)
          (default_pType : PlottingType).
Context {T_x T_y : Type} `{!Numeric T_x, !Numeric T_y}.
Variables (xValues : list T_x) (yValues : list (list T_y)) (y0 : list T_y).
Variables (color : Color) (type : PlottingType) (labels : list string).

Local Abbreviation N := (length xValues).
Local Abbreviation M := (length y0).
Local Abbreviation dflt :=
  (PlotDataSet_default default_color default_label default_pType).

Hypothesis first_sample : yValues !! 0 = Some y0.
Hypothesis samples : N ≤ length yValues.
Hypothesis rows : Forall (λ row, M ≤ length row) (take N yValues).

Local Abbreviation assigned :=
  (assigned_upto dflt xValues yValues color type labels).

(** One round of the loop of lines 97-99 over the transposed [data]. *)
Local Abbreviation round data :=
  (λ (i : nat) (out : list PlotDataSet),
     row ← at_ data i;
     label ← label_or_empty (bool_decide (i < length labels)) labels i;
     d ← PlotDataSet_ctor xValues row color label type;
     assign out i d).

Lemma several_Y_round (data : list (list float)) (i : nat) (out : list PlotDataSet) :
  column_of yValues N data i → i < N → assigned i out →
  ∃ out', round data i out = Returned out' ∧ assigned (S i) out'.
Proof.
  intros (row & Hrow & Hlen & Hcells) Hi (Hout & Hseries & Hrest).
  rewrite (at_lookup data i row Hrow). simpl.
  rewrite label_or_empty_positional. simpl.
  rewrite PlotDataSet_ctor_Returned by done. simpl.
  rewrite assign_in_range by lia.
  eexists. split; [done |]. split; [by rewrite length_insert |]. split.
  - intros s Hs. destruct (decide (s = i)) as [-> | Hne].
    + eexists. rewrite list_lookup_insert_eq by lia. split; [done |].
      unfold is_series. simpl. by rewrite fmap_to_float_float.
    + rewrite list_lookup_insert_ne by done. apply Hseries. lia.
  - intros s Hs. rewrite list_lookup_insert_ne by lia. apply Hrest. lia.
Qed.

Lemma several_Y_round_past_the_end (data : list (list float)) (out : list PlotDataSet) :
  column_of yValues N data N → assigned N out →
  round data N out = Undefined OutOfRange.
Proof.
  intros (row & Hrow & Hlen & Hcells) (Hout & _ & _).
  rewrite (at_lookup data N row Hrow). simpl.
  rewrite label_or_empty_positional. simpl.
  rewrite PlotDataSet_ctor_Returned by done. simpl.
  by rewrite assign_out_of_range by lia.
Qed.

Lemma several_Y_unfold :
  N ≠ 0 →
  ∃ data, length data = M ∧ (∀ s, s < M → column_of yValues N data s) ∧
    several_Y default_color default_label default_pType
      xValues yValues color type labels
    = for_int M (round data) (replicate N dflt).
Proof.
  intros HN.
  destruct (transpose_table yValues N M (cells_defined yValues N M samples rows))
    as (data & Hrun & Hlen & Hcols).
  exists data. repeat split; [done .. |].
  unfold several_Y. rewrite (at_lookup yValues 0 y0 first_sample). simpl.
  rewrite decide_False by done. by rewrite Hrun.
Qed.

Lemma assigned_initially : assigned 0 (replicate N dflt).
Proof.
  split; [by rewrite length_replicate |]. split; [lia |].
  intros s Hs. apply lookup_replicate_2. lia.
Qed.

(** When the series fit the output vector ([M ≤ N]) the path returns [N]
    entries: the [M] series, then [N - M] data sets left as the default
    constructor made them. *)
Lemma several_Y_returns :
  N ≠ 0 → (Z.of_nat N ≤ INT_MAX)%Z → M ≤ N →
  ∃ out,
    several_Y default_color default_label default_pType
      xValues yValues color type labels = Returned out ∧
    length out = N ∧
    (∀ s, s < M → ∃ d, out !! s = Some d ∧
                       is_series xValues yValues color type labels s d) ∧
    (∀ s, M ≤ s < N → out !! s = Some dflt).
Proof.
  intros HN Hint HMN.
  destruct (several_Y_unfold HN) as (data & Hlen & Hcols & ->).
  rewrite for_int_in_range by lia.
  destruct (iterate_inv assigned (round data) 0 M (replicate N dflt))
    as (out & -> & Hout & Hseries & Hrest).
  - apply assigned_initially.
  - intros i out [_ Hi] Hinv. apply several_Y_round; [apply Hcols | |]; [lia | lia | done].
  - by exists out.
Qed.

(** When there are more series than samples ([N < M]) round [N] of the
    loop of lines 97-99 writes [out[N]], one past the end. *)
Lemma several_Y_overruns :
  N ≠ 0 → (Z.of_nat N ≤ INT_MAX)%Z → N < M →
  several_Y default_color default_label default_pType
    xValues yValues color type labels = Undefined OutOfRange.
Proof.
  intros HN Hint HNM.
  destruct (several_Y_unfold HN) as (data & Hlen & Hcols & ->).
  assert (∀ m, N < m → iterate (round data) 0 m (replicate N dflt)
                       = Undefined OutOfRange) as Hrun.
  { intros m Hm.
    apply (iterate_out_of_range assigned (round data) 0 N m); [| | | done].
    - apply assigned_initially.
    - intros i out [_ Hi] Hinv. apply several_Y_round; [apply Hcols | |]; [lia | lia | done].
    - intros out Hinv. apply several_Y_round_past_the_end; [by apply Hcols | done]. }
  unfold for_int. case_decide as HM.
  - by apply Hrun.
  - rewrite Hrun; [done |]. unfold INT_MAX in *. lia.
Qed.

End Several_Y.

(** *** The nested-nested path *)

Lemma int_of_size_t_in_range (n : nat) :
  (Z.of_nat n ≤ INT_MAX)%Z → int_of_size_t n = Z.of_nat n.
Proof.
  unfold INT_MAX, int_of_size_t. intros Hn.
  rewrite Z.mod_small by lia. lia.
Qed.

Lemma label_or_empty_int_positional (labels : list string) (i : nat) :
  (Z.of_nat (length labels) ≤ INT_MAX)%Z →
  label_or_empty (bool_decide (Z.of_nat i < int_of_size_t (length labels))%Z) labels i
    = Returned (default "" (labels !! i)).
Proof.
  intros Hlabels. rewrite int_of_size_t_in_range by done.
  rewrite <- label_or_empty_positional. f_equal.
  apply bool_decide_ext. lia.
Qed.

Lemma rows_defined {T} `{!Numeric T} (values : list (list T)) (M : nat) :
  Forall (λ row, M ≤ length row) values →
  ∀ n s, n < length values → s < M → is_Some (cell values n s).
Proof.
  intros Hrows. apply cells_defined; [done |]. by rewrite take_ge.
Qed.

Section Several_XY.

Variables (default_color : Color) (default_label : string)
          (default_pType : PlottingType).
Context {T_x T_y : Type} `{!Numeric T_x, !Numeric T_y}.
Variables (xValues : list (list T_x)) (yValues : list (list T_y)) (y0 : list T_y).
Variables (color : Color) (type : PlottingType) (labels : list string).

Local Abbreviation N := (length xValues).
Local Abbreviation M := (length y0).
Local Abbreviation dflt :=
  (PlotDataSet_default default_color default_label default_pType).

Hypothesis first_sample : yValues !! 0 = Some y0.
Hypothesis outer : length yValues = N.
Hypothesis xrows : Forall (λ row, M ≤ length row) xValues.
Hypothesis yrows : Forall (λ row, M ≤ length row) yValues.
Hypothesis labels_int : (Z.of_nat (length labels) ≤ INT_MAX)%Z.

Local Abbreviation paired :=
  (paired_upto dflt xValues yValues color type labels).

(** One round of the loop of lines 124-126 over the transposed tables. *)
Local Abbreviation round xdata ydata :=
  (λ (i : nat) (out : list PlotDataSet),
     xrow ← at_ xdata i;
     yrow ← at_ ydata i;
     label ← label_or_empty
                (bool_decide (Z.of_nat i < int_of_size_t (length labels))%Z) labels i;
     d ← PlotDataSet_ctor xrow yrow color label type;
     assign out i d).

Lemma several_XY_round (xdata ydata : list (list float)) (i : nat)
    (out : list PlotDataSet) :
  column_of xValues N xdata i → column_of yValues N ydata i → i < N → paired i out →
  ∃ out', round xdata ydata i out = Returned out' ∧ paired (S i) out'.
Proof.
  intros (xrow & Hxrow & Hxlen & Hxcells) (yrow & Hyrow & Hylen & Hycells)
         Hi (Hout & Hseries & Hrest).
  rewrite (at_lookup xdata i xrow Hxrow). simpl.
  rewrite (at_lookup ydata i yrow Hyrow). simpl.
  rewrite label_or_empty_int_positional by done. simpl.
  rewrite PlotDataSet_ctor_Returned by lia. simpl.
  rewrite assign_in_range by lia.
  eexists. split; [done |]. split; [by rewrite length_insert |]. split.
  - intros s Hs. destruct (decide (s = i)) as [-> | Hne].
    + eexists. rewrite list_lookup_insert_eq by lia. split; [done |].
      unfold is_paired_series. simpl. by rewrite !fmap_to_float_float.
    + rewrite list_lookup_insert_ne by done. apply Hseries. lia.
  - intros s Hs. rewrite list_lookup_insert_ne by lia. apply Hrest. lia.
Qed.

Lemma several_XY_round_past_the_end (xdata ydata : list (list float))
    (out : list PlotDataSet) :
  length xdata = M → round xdata ydata M out = Undefined OutOfRange.
Proof. intros Hlen. cbv beta. by rewrite (at_out_of_range xdata M) by lia. Qed.

Lemma several_XY_unfold :
  ∃ xdata ydata,
    transposed_upto xValues N M M xdata ∧ transposed_upto yValues N M M ydata ∧
    several_XY default_color default_label default_pType
      xValues yValues color type labels
    = for_int N (round xdata ydata) (replicate N dflt).
Proof.
  destruct (transpose_tables xValues yValues N M) as (xdata & ydata & Hrun & Hx & Hy).
  - by apply rows_defined.
  - rewrite <- outer. by apply rows_defined.
  - exists xdata, ydata. split; [done |]. split; [done |].
    unfold several_XY. rewrite (at_lookup yValues 0 y0 first_sample). simpl.
    rewrite decide_False by (by intros []). by rewrite Hrun.
Qed.

Lemma paired_initially : paired 0 (replicate N dflt).
Proof.
  split; [by rewrite length_replicate |]. split; [lia |].
  intros s Hs. apply lookup_replicate_2. lia.
Qed.

(** With no more samples than series ([N ≤ M]) the path returns [N]
    containers, the series [0 .. N-1]: all of them when [N = M], and
    short of the last [M - N] series when [N < M]. *)
Lemma several_XY_returns :
  (Z.of_nat N ≤ INT_MAX)%Z → N ≤ M →
  ∃ out,
    several_XY default_color default_label default_pType
      xValues yValues color type labels = Returned out ∧
    length out = N ∧
    ∀ s, s < N → ∃ d, out !! s = Some d ∧
                      is_paired_series xValues yValues color type labels s d.
Proof.
  intros Hint HNM.
  destruct several_XY_unfold as (xdata & ydata & [Hxlen Hx] & [Hylen Hy] & ->).
  rewrite for_int_in_range by done.
  destruct (iterate_inv paired (round xdata ydata) 0 N (replicate N dflt))
    as (out & -> & Hout & Hseries & Hrest).
  - apply paired_initially.
  - intros i out [_ Hi] Hinv.
    apply several_XY_round; [apply Hx | apply Hy | |]; [lia | lia | lia | done].
  - by exists out.
Qed.

(** With more samples than series ([M < N]) round [M] of the loop of
    lines 124-126 reads [xdata[M]], one past the end. *)
Lemma several_XY_overruns :
  (Z.of_nat M ≤ INT_MAX)%Z → M < N →
  several_XY default_color default_label default_pType
    xValues yValues color type labels = Undefined OutOfRange.
Proof.
  intros Hint HMN.
  destruct several_XY_unfold as (xdata & ydata & [Hxlen Hx] & [Hylen Hy] & ->).
  assert (∀ m, M < m → iterate (round xdata ydata) 0 m (replicate N dflt)
                       = Undefined OutOfRange) as Hrun.
  { intros m Hm.
    apply (iterate_out_of_range (λ i out, i ≤ M ∧ paired i out)
             (round xdata ydata) 0 M m); [| | | done].
    - split; [lia | apply paired_initially].
    - intros i out [_ Hi] [_ Hinv].
      destruct (several_XY_round xdata ydata i out) as (out' & Hround & Hinv');
        [apply Hx | apply Hy | | |]; [lia | lia | lia | done |].
      exists out'. split; [done |]. split; [lia | done].
    - intros out _. by apply several_XY_round_past_the_end. }
  unfold for_int. case_decide as HN.
  - by apply Hrun.
  - rewrite Hrun; [done |]. unfold INT_MAX in *. lia.
Qed.

End Several_XY.

(** *** The scalar-nested path, as the specification states it *)

Lemma PlotDataSet_default_empty default_color default_label default_pType :
  GetDataLength (PlotDataSet_default default_color default_label default_pType) = 0.
Proof. reflexivity. Qed.

(** C10 (as amended): in the scalar-nested path, for a non-empty xValues
    of N samples (N within the range of the [int] loop counter) and a
    table yValues holding at least N samples of at least M = |yValues[0]|
    values each: when M <= N the call returns exactly N entries, entries
    0..M-1 being the series and the last N-M the default-constructed data
    sets the output vector was allocated with; when M > N the assignment
    loop indexes the output vector out of range. *)
Theorem MultiPlotDatSet_flat_nested_allocates_N
    default_color default_label default_pType
    {T_x T_y : Type} `{!Numeric T_x, !Numeric T_y}
    (xValues : list T_x) (yValues : list (list T_y)) (y0 : list T_y)
    color type labels :
  yValues !! 0 = Some y0 →
  length xValues ≠ 0 →
  (Z.of_nat (length xValues) ≤ INT_MAX)%Z →
  length xValues ≤ length yValues →
  Forall (λ row, length y0 ≤ length row) (take (length xValues) yValues) →
  (length y0 ≤ length xValues →
   ∃ out,
     MultiPlotDatSet default_color default_label default_pType
       (Flat xValues) (Nested yValues) color type labels = Returned out ∧
     length out = length xValues ∧
     (∀ s, s < length y0 →
        ∃ d, out !! s = Some d ∧ is_series xValues yValues color type labels s d) ∧
     (∀ s, length y0 ≤ s < length xValues →
        out !! s = Some (PlotDataSet_default default_color default_label default_pType))) ∧
  (length xValues < length y0 →
   MultiPlotDatSet default_color default_label default_pType
     (Flat xValues) (Nested yValues) color type labels = Undefined OutOfRange).
Proof.
  intros Hy0 HN Hint Hsamples Hrows. split; intros HMN; simpl.
  - by apply (several_Y_returns _ _ _ _ _ y0).
  - by apply (several_Y_overruns _ _ _ _ _ y0).
Qed.

Lemma MultiPlotDatSet_flat_nested_allocates_N_witness :
  (∃ out,
     MultiPlotDatSet {| col_r := 255; col_g := 255; col_b := 255; col_a := 255 |} "" POINTS
       (Flat [1; 2; 3]%Z) (Nested [[10; 20]; [11; 21]; [12; 22]]%Z)
       {| col_r := 255; col_g := 0; col_b := 0; col_a := 255 |} LINE ["a"; "b"]
       = Returned out ∧
     length out = 3 ∧
     out !! 2 = Some (PlotDataSet_default
                        {| col_r := 255; col_g := 255; col_b := 255; col_a := 255 |}
                        "" POINTS)) ∧
  MultiPlotDatSet {| col_r := 255; col_g := 255; col_b := 255; col_a := 255 |} "" POINTS
    (Flat [1; 2]%Z) (Nested [[10; 20; 30]; [11; 21; 31]]%Z)
    {| col_r := 255; col_g := 0; col_b := 0; col_a := 255 |} LINE ["a"; "b"]
  = Undefined OutOfRange.
Proof.
  split.
  - destruct (MultiPlotDatSet_flat_nested_allocates_N
                {| col_r := 255; col_g := 255; col_b := 255; col_a := 255 |} "" POINTS
                (T_x := int) (T_y := int)
                [1; 2; 3]%Z [[10; 20]; [11; 21]; [12; 22]]%Z [10; 20]%Z
                {| col_r := 255; col_g := 0; col_b := 0; col_a := 255 |} LINE ["a"; "b"])
      as [Hfits _].
    + reflexivity.
    + simpl. lia.
    + simpl. unfold INT_MAX. lia.
    + simpl. lia.
    + simpl. repeat constructor.
    + destruct Hfits as (out & Hrun & Hlen & _ & Hrest); [simpl; lia |].
      exists out. split; [exact Hrun |]. split; [exact Hlen |].
      apply Hrest. simpl. lia.
  - destruct (MultiPlotDatSet_flat_nested_allocates_N
                {| col_r := 255; col_g := 255; col_b := 255; col_a := 255 |} "" POINTS
                (T_x := int) (T_y := int)
                [1; 2]%Z [[10; 20; 30]; [11; 21; 31]]%Z [10; 20; 30]%Z
                {| col_r := 255; col_g := 0; col_b := 0; col_a := 255 |} LINE ["a"; "b"])
      as [_ Hoverruns].
    + reflexivity.
    + simpl. lia.
    + simpl. unfold INT_MAX. lia.
    + simpl. lia.
    + simpl. repeat constructor.
    + apply Hoverruns. simpl. lia.
Defined.

(** C10 as first stated, for every input, fails on the code.  With an
    empty xValues the guard of line 83 throws before the output vector
    exists: for M > N (x = [], y = [[10,20]]) the call is the exception,
    not an out-of-range write, and for M <= N (x = [], y = [[]]) it is the
    exception, not a return of N = 0 entries.  And with fewer samples in
    yValues than in xValues (x = [1,2,3], y = [[10],[11]], M = 1 <= N = 3)
    the transposition reads [yValues[2]] out of range, so nothing is
    returned. *)
Lemma MultiPlotDatSet_flat_nested_allocates_N_counterexample :
  (length ([] : list int) < length [10; 20]%Z ∧
   MultiPlotDatSet {| col_r := 255; col_g := 255; col_b := 255; col_a := 255 |} "" POINTS
     (Flat ([] : list int)) (Nested [[10; 20]]%Z)
     {| col_r := 255; col_g := 0; col_b := 0; col_a := 255 |} LINE []
   = Thrown "Empty y value data" ∧
   MultiPlotDatSet {| col_r := 255; col_g := 255; col_b := 255; col_a := 255 |} "" POINTS
     (Flat ([] : list int)) (Nested [[10; 20]]%Z)
     {| col_r := 255; col_g := 0; col_b := 0; col_a := 255 |} LINE []
   ≠ Undefined OutOfRange) ∧
  (length ([] : list int) ≤ length ([] : list int) ∧
   MultiPlotDatSet {| col_r := 255; col_g := 255; col_b := 255; col_a := 255 |} "" POINTS
     (Flat ([] : list int)) (Nested [([] : list int)])
     {| col_r := 255; col_g := 0; col_b := 0; col_a := 255 |} LINE []
   = Thrown "Empty y value data" ∧
   ∀ out,
     MultiPlotDatSet {| col_r := 255; col_g := 255; col_b := 255; col_a := 255 |} "" POINTS
       (Flat ([] : list int)) (Nested [([] : list int)])
       {| col_r := 255; col_g := 0; col_b := 0; col_a := 255 |} LINE []
     ≠ Returned out) ∧
  (length [10]%Z ≤ length [1; 2; 3]%Z ∧
   MultiPlotDatSet {| col_r := 255; col_g := 255; col_b := 255; col_a := 255 |} "" POINTS
     (Flat [1; 2; 3]%Z) (Nested [[10]; [11]]%Z)
     {| col_r := 255; col_g := 0; col_b := 0; col_a := 255 |} LINE []
   = Undefined OutOfRange ∧
   ∀ out,
     MultiPlotDatSet {| col_r := 255; col_g := 255; col_b := 255; col_a := 255 |} "" POINTS
       (Flat [1; 2; 3]%Z) (Nested [[10]; [11]]%Z)
       {| col_r := 255; col_g := 0; col_b := 0; col_a := 255 |} LINE []
     ≠ Returned out).
Proof.
  split; [| split].
  - split; [simpl; lia |]. split; [reflexivity | discriminate].
  - split; [simpl; lia |]. split; [reflexivity | discriminate].
  - split; [simpl; lia |]. split; [reflexivity | discriminate].
Qed.

(** C1 (fails on the code): on X = [1,2,3] and Y = [[10,20],[11,21],[12,22]]
    the call returns three containers, not two: the two series with points
    (1,10),(2,11),(3,12) and (1,20),(2,21),(3,22), followed by a
    default-constructed data set. *)
Theorem MultiPlotDatSet_flat_nested_example
    default_color default_label default_pType color type :
  MultiPlotDatSet default_color default_label default_pType
    (Flat [1; 2; 3]%Z) (Nested [[10; 20]; [11; 21]; [12; 22]]%Z) color type []
  = Returned
      [ {| _yValues := to_float <$> [10; 11; 12]%Z;
           _xValues := to_float <$> [1; 2; 3]%Z;
           _color := color; _label := ""; _pType := type |};
        {| _yValues := to_float <$> [20; 21; 22]%Z;
           _xValues := to_float <$> [1; 2; 3]%Z;
           _color := color; _label := ""; _pType := type |};
        PlotDataSet_default default_color default_label default_pType ].
Proof. reflexivity. Qed.

(** C3 (fails on the code): with xValues empty and the nested yValues
    empty as well, the call is an out-of-range read of [yValues[0]], not
    the exception. *)
Theorem MultiPlotDatSet_empty_x_empty_y
    default_color default_label default_pType
    {T_x T_y : Type} `{!Numeric T_x, !Numeric T_y} color type labels :
  MultiPlotDatSet default_color default_label default_pType
    (Flat ([] : list T_x)) (Nested ([] : list (list T_y))) color type labels
  = Undefined OutOfRange.
Proof. reflexivity. Qed.

(** C4 (fails on the code): with a non-empty nested xValues and an empty
    nested yValues the outer lengths differ, and the call is an
    out-of-range read of [yValues[0]], not the exception. *)
Theorem MultiPlotDatSet_mismatch_empty_y
    default_color default_label default_pType
    {T_x T_y : Type} `{!Numeric T_x, !Numeric T_y}
    (x0 : list T_x) (xValues : list (list T_x)) color type labels :
  length (x0 :: xValues) ≠ length ([] : list (list T_y)) ∧
  MultiPlotDatSet default_color default_label default_pType
    (Nested (x0 :: xValues)) (Nested ([] : list (list T_y))) color type labels
  = Undefined OutOfRange.
Proof. done. Qed.

(** C2 (fails on the code): on X = [[1,1],[2,2],[3,3]] and
    Y = [[10,20],[11,21],[12,22]] the loop of lines 124-126 runs over the
    three samples and reads row 2 of the two-row transposed tables: an
    out-of-range access, not two containers. *)
Theorem MultiPlotDatSet_nested_nested_example
    default_color default_label default_pType color type :
  MultiPlotDatSet default_color default_label default_pType
    (Nested [[1; 1]; [2; 2]; [3; 3]]%Z) (Nested [[10; 20]; [11; 21]; [12; 22]]%Z)
    color type []
  = Undefined OutOfRange.
Proof. reflexivity. Qed.

(** With as many samples as series the same path does return one
    container per series. *)
Example MultiPlotDatSet_nested_nested_square
    default_color default_label default_pType color type :
  MultiPlotDatSet default_color default_label default_pType
    (Nested [[1; 1]; [2; 2]]%Z) (Nested [[10; 20]; [11; 21]]%Z)
    color type ["only-one"]
  = Returned
      [ {| _yValues := to_float <$> [10; 11]%Z;
           _xValues := to_float <$> [1; 2]%Z;
           _color := color; _label := "only-one"; _pType := type |};
        {| _yValues := to_float <$> [20; 21]%Z;
           _xValues := to_float <$> [1; 2]%Z;
           _color := color; _label := ""; _pType := type |} ].
Proof. reflexivity. Qed.

(** ** The builder on arbitrary input

    The results above assume a table of the documented shape.  What
    follows holds for every input the templates accept, ragged tables
    included. *)

(** *** Loops that may stop at an undefined access *)

(** A loop whose body, under an invariant, either keeps the invariant or
    is undefined behaviour of a kind [F], either returns with the
    invariant at the final index or is undefined behaviour of that
    kind. *)
Lemma iterate_cases {St} (F : UB → Prop) (P : nat → St → Prop)
    (body : nat → St → outcome St) (i n : nat) (s : St) :
  P i s →
  (∀ k s, i ≤ k < i + n → P k s →
     (∃ s', body k s = Returned s' ∧ P (S k) s') ∨
     (∃ u, body k s = Undefined u ∧ F u)) →
  (∃ s', iterate body i n s = Returned s' ∧ P (i + n) s') ∨
  (∃ u, iterate body i n s = Undefined u ∧ F u).
Proof.
  revert i s. induction n as [| n IH]; intros i s Hs Hbody; simpl.
  - left. exists s. by rewrite Nat.add_0_r.
  - destruct (Hbody i s ltac:(lia) Hs) as [(s' & -> & Hs') | (u & -> & Hu)]; simpl.
    + replace (i + S n) with (S i + n) by lia. apply IH; [done |].
      intros k t Hk. apply Hbody. lia.
    + right. by exists u.
Qed.

Lemma iterate_prefix_cases {St} (P : nat → St → Prop)
    (body : nat → St → outcome St) (n m : nat) (s : St) :
  m ≤ n → P 0 s →
  (∀ k s, k < n → P k s →
     (∃ s', body k s = Returned s' ∧ P (S k) s') ∨ (∃ u, body k s = Undefined u)) →
  (∃ s', iterate body 0 m s = Returned s' ∧ P m s') ∨
  (∃ u, iterate body 0 m s = Undefined u).
Proof.
  intros Hm Hs Hbody.
  destruct (iterate_cases (λ _, True) P body 0 m s Hs) as [Hret | (u & Hu & _)].
  - intros k t [_ Hk] Ht.
    destruct (Hbody k t ltac:(lia) Ht) as [? | [u Hu]]; [by left | right; by exists u].
  - by left.
  - right. by exists u.
Qed.

(** The same for the loop with an [int] counter, where the counter
    overflow is one more undefined behaviour. *)
Lemma for_int_cases {St} (P : nat → St → Prop)
    (body : nat → St → outcome St) (n : nat) (s : St) :
  P 0 s →
  (∀ k s, k < n → P k s →
     (∃ s', body k s = Returned s' ∧ P (S k) s') ∨ (∃ u, body k s = Undefined u)) →
  (∃ s', for_int n body s = Returned s' ∧ P n s') ∨
  (∃ u, for_int n body s = Undefined u).
Proof.
  intros Hs Hbody. unfold for_int. case_decide as Hn.
  - by apply (iterate_prefix_cases P body n n).
  - right.
    assert (Z.to_nat (INT_MAX + 1) ≤ n) as Hm by (unfold INT_MAX in *; lia).
    revert Hm. generalize (Z.to_nat (INT_MAX + 1)). intros m Hm.
    destruct (iterate_prefix_cases P body n m s Hm Hs Hbody)
      as [(s' & -> & _) | (u & ->)]; by eexists.
Qed.

(** *** Reading a cell and filling a row, without a shape assumption *)

Lemma read_cell_Some {T B} `{!Numeric T} (values : list (list T)) (j i : nat)
    (v : float) (k : T → outcome B) :
  cell values j i = Some v →
  ∃ w, to_float w = v ∧ (yj ← at_ values j; x ← at_ yj i; k x) = k w.
Proof.
  unfold cell. intros Hv.
  destruct (values !! j) as [yj |] eqn:Hyj; [| done]. simpl in Hv.
  destruct (yj !! i) as [w |] eqn:Hw; [| done]. injection Hv as <-.
  exists w. split; [done |].
  rewrite (at_lookup values j yj Hyj). simpl. by rewrite (at_lookup yj i w Hw).
Qed.

Lemma read_cell_None {T B} `{!Numeric T} (values : list (list T)) (j i : nat)
    (k : T → outcome B) :
  cell values j i = None →
  (yj ← at_ values j; x ← at_ yj i; k x) = Undefined OutOfRange.
Proof.
  unfold cell, at_. intros Hv.
  destruct (values !! j) as [yj |] eqn:Hyj; [| done]. simpl in *.
  by destruct (yj !! i).
Qed.

Lemma filling_write {T} `{!Numeric T} (values : list (list T)) (N : nat)
    (data0 data : list (list float)) (i j : nat) (v : float) :
  j < N → filling values N data0 i j data → cell values j i = Some v →
  ∃ data', assign2 data i j v = Returned data' ∧
           filling values N data0 i (S j) data'.
Proof.
  intros Hj (Hlen & Hothers & row & Hrow & Hrowlen & Hcells) Hv.
  exists (<[i := <[j := v]> row]> data).
  split; [apply assign2_in_range; [done | lia] |].
  split; [by rewrite length_insert |]. split.
  - intros s Hs. by rewrite list_lookup_insert_ne, Hothers.
  - exists (<[j := v]> row).
    rewrite list_lookup_insert_eq by (by apply lookup_lt_is_Some_1).
    rewrite length_insert. repeat split; [done .. |].
    intros n Hn. destruct (decide (n = j)) as [-> | Hne].
    + by rewrite list_lookup_insert_eq by lia.
    + rewrite list_lookup_insert_ne by done. apply Hcells. lia.
Qed.

(** A transposed table has a value in every cell it was built from. *)
Lemma transposed_cells {T} `{!Numeric T} (values : list (list T)) (N M : nat)
    (data : list (list float)) :
  transposed_upto values N M M data →
  ∀ n s, n < N → s < M → is_Some (cell values n s).
Proof.
  intros [_ Hcols] n s Hn Hs.
  destruct (Hcols s Hs) as (row & _ & Hlen & Hcells).
  rewrite <- Hcells by done. apply lookup_lt_is_Some_2. lia.
Qed.

(** *** The transposition loops on arbitrary tables *)

Lemma transpose_column_cases {T} `{!Numeric T} (values : list (list T)) (N : nat)
    (i : nat) (data0 : list (list float)) :
  filling values N data0 i 0 data0 →
  (∃ data,
     for_size_t N (λ j data, yj ← at_ values j; v ← at_ yj i;
                             assign2 data i j (to_float v)) data0 = Returned data ∧
     filling values N data0 i N data) ∨
  for_size_t N (λ j data, yj ← at_ values j; v ← at_ yj i;
                          assign2 data i j (to_float v)) data0 = Undefined OutOfRange.
Proof.
  intros Hstart. unfold for_size_t.
  destruct (iterate_cases (eq OutOfRange) (filling values N data0 i)
              (λ j data, yj ← at_ values j; v ← at_ yj i; assign2 data i j (to_float v))
              0 N data0 Hstart) as [Hret | (u & Hu & <-)]; [| by left | by right].
  intros j data [_ Hj] Hfill. destruct (cell values j i) as [v |] eqn:Hv.
  - left.
    destruct (read_cell_Some values j i v (λ x, assign2 data i j (to_float x)) Hv)
      as (w & Hw & ->). rewrite Hw.
    by apply (filling_write values N data0 data i j v).
  - right. exists OutOfRange. split; [| done]. by apply read_cell_None.
Qed.

Lemma transpose_table_cases {T} `{!Numeric T} (values : list (list T)) (N M : nat) :
  (∃ data,
     for_size_t M (λ i data,
       data ← assign data i (replicate N float_zero);
       for_size_t N (λ j data, yj ← at_ values j; v ← at_ yj i;
                               assign2 data i j (to_float v)) data)
       (replicate M []) = Returned data ∧
     transposed_upto values N M M data) ∨
  for_size_t M (λ i data,
    data ← assign data i (replicate N float_zero);
    for_size_t N (λ j data, yj ← at_ values j; v ← at_ yj i;
                            assign2 data i j (to_float v)) data)
    (replicate M []) = Undefined OutOfRange.
Proof.
  unfold for_size_t at 1 3.
  destruct (iterate_cases (eq OutOfRange) (transposed_upto values N M)
    (λ i data,
      data ← assign data i (replicate N float_zero);
      for_size_t N (λ j data, yj ← at_ values j; v ← at_ yj i;
                              assign2 data i j (to_float v)) data)
    0 M (replicate M [])) as [Hret | (u & Hu & <-)];
    [apply transposed_start | | by left | by right].
  intros i data [_ Hi] Hinv. assert (length data = M) as Hlen by apply Hinv.
  rewrite assign_in_range by lia. simpl.
  destruct (transpose_column_cases values N i (<[i := replicate N float_zero]> data))
    as [(data' & -> & Hfill) | ->]; [apply filling_start; lia | |].
  - left. exists data'. split; [done |]. by apply (transposed_step _ _ _ i data).
  - right. by exists OutOfRange.
Qed.

Lemma transpose_columns_cases {T_x T_y} `{!Numeric T_x, !Numeric T_y}
    (xValues : list (list T_x)) (yValues : list (list T_y)) (N : nat)
    (i : nat) (xdata0 ydata0 : list (list float)) :
  filling xValues N xdata0 i 0 xdata0 → filling yValues N ydata0 i 0 ydata0 →
  (∃ xdata ydata,
     for_size_t N (λ j '(xdata, ydata),
        xj ← at_ xValues j; xv ← at_ xj i;
        xdata ← assign2 xdata i j (to_float xv);
        yj ← at_ yValues j; yv ← at_ yj i;
        ydata ← assign2 ydata i j (to_float yv);
        mret (xdata, ydata)) (xdata0, ydata0) = Returned (xdata, ydata) ∧
     filling xValues N xdata0 i N xdata ∧ filling yValues N ydata0 i N ydata) ∨
  for_size_t N (λ j '(xdata, ydata),
     xj ← at_ xValues j; xv ← at_ xj i;
     xdata ← assign2 xdata i j (to_float xv);
     yj ← at_ yValues j; yv ← at_ yj i;
     ydata ← assign2 ydata i j (to_float yv);
     mret (xdata, ydata)) (xdata0, ydata0) = Undefined OutOfRange.
Proof.
  intros Hxstart Hystart. unfold for_size_t.
  destruct (iterate_cases (eq OutOfRange)
    (λ j '(xdata, ydata),
       filling xValues N xdata0 i j xdata ∧ filling yValues N ydata0 i j ydata)
    (λ j '(xdata, ydata),
        xj ← at_ xValues j; xv ← at_ xj i;
        xdata ← assign2 xdata i j (to_float xv);
        yj ← at_ yValues j; yv ← at_ yj i;
        ydata ← assign2 ydata i j (to_float yv);
        mret (xdata, ydata))
    0 N (xdata0, ydata0)) as [([xdata ydata] & Hrun & Hx & Hy) | (u & Hu & <-)];
    [done | | left; by exists xdata, ydata | by right].
  intros j [xdata ydata] [_ Hj] [Hx Hy].
  destruct (cell xValues j i) as [xv |] eqn:Hxv;
    [| right; exists OutOfRange; split; [by apply read_cell_None | done]].
  destruct (read_cell_Some xValues j i xv
              (λ x, xdata ← assign2 xdata i j (to_float x);
                    yj ← at_ yValues j; yv ← at_ yj i;
                    ydata ← assign2 ydata i j (to_float yv);
                    mret (xdata, ydata)) Hxv) as (xw & Hxw & ->). rewrite Hxw.
  destruct (filling_write xValues N xdata0 xdata i j xv Hj Hx Hxv)
    as (xdata' & -> & Hx'). simpl.
  destruct (cell yValues j i) as [yv |] eqn:Hyv;
    [| right; exists OutOfRange; split; [by apply read_cell_None | done]].
  destruct (read_cell_Some yValues j i yv
              (λ y, ydata ← assign2 ydata i j (to_float y);
                    mret (xdata', ydata)) Hyv) as (yw & Hyw & ->). rewrite Hyw.
  destruct (filling_write yValues N ydata0 ydata i j yv Hj Hy Hyv)
    as (ydata' & -> & Hy'). simpl.
  left. by exists (xdata', ydata').
Qed.

Lemma transpose_tables_cases {T_x T_y} `{!Numeric T_x, !Numeric T_y}
    (xValues : list (list T_x)) (yValues : list (list T_y)) (N M : nat) :
  (∃ xdata ydata,
     for_size_t M (λ i '(xdata, ydata),
       xdata ← assign xdata i (replicate N float_zero);
       ydata ← assign ydata i (replicate N float_zero);
       for_size_t N (λ j '(xdata, ydata),
           xj ← at_ xValues j; xv ← at_ xj i;
           xdata ← assign2 xdata i j (to_float xv);
           yj ← at_ yValues j; yv ← at_ yj i;
           ydata ← assign2 ydata i j (to_float yv);
           mret (xdata, ydata)) (xdata, ydata))
       (replicate M [], replicate M []) = Returned (xdata, ydata) ∧
     transposed_upto xValues N M M xdata ∧ transposed_upto yValues N M M ydata) ∨
  for_size_t M (λ i '(xdata, ydata),
    xdata ← assign xdata i (replicate N float_zero);
    ydata ← assign ydata i (replicate N float_zero);
    for_size_t N (λ j '(xdata, ydata),
        xj ← at_ xValues j; xv ← at_ xj i;
        xdata ← assign2 xdata i j (to_float xv);
        yj ← at_ yValues j; yv ← at_ yj i;
        ydata ← assign2 ydata i j (to_float yv);
        mret (xdata, ydata)) (xdata, ydata))
    (replicate M [], replicate M []) = Undefined OutOfRange.
Proof.
  unfold for_size_t at 1 3.
  destruct (iterate_cases (eq OutOfRange)
    (λ i '(xdata, ydata),
       transposed_upto xValues N M i xdata ∧ transposed_upto yValues N M i ydata)
    (λ i '(xdata, ydata),
      xdata ← assign xdata i (replicate N float_zero);
      ydata ← assign ydata i (replicate N float_zero);
      for_size_t N (λ j '(xdata, ydata),
          xj ← at_ xValues j; xv ← at_ xj i;
          xdata ← assign2 xdata i j (to_float xv);
          yj ← at_ yValues j; yv ← at_ yj i;
          ydata ← assign2 ydata i j (to_float yv);
          mret (xdata, ydata)) (xdata, ydata))
    0 M (replicate M [], replicate M []))
    as [([xdata ydata] & Hrun & Hx & Hy) | (u & Hu & <-)];
    [split; apply transposed_start | | left; by exists xdata, ydata | by right].
  intros i [xdata ydata] [_ Hi] [Hx Hy].
  assert (length xdata = M) as Hxlen by apply Hx.
  assert (length ydata = M) as Hylen by apply Hy.
  rewrite assign_in_range by lia. simpl.
  rewrite assign_in_range by lia. simpl.
  destruct (transpose_columns_cases xValues yValues N i
              (<[i := replicate N float_zero]> xdata)
              (<[i := replicate N float_zero]> ydata))
    as [(xdata' & ydata' & -> & Hxfill & Hyfill) | ->];
    [apply filling_start; lia | apply filling_start; lia | |].
  - left. exists (xdata', ydata'). split; [done |].
    split; [by apply (transposed_step _ _ _ i xdata)
           | by apply (transposed_step _ _ _ i ydata)].
  - right. by exists OutOfRange.
Qed.

(** *** The scalar-nested path on arbitrary input *)

Section Several_Y_any.

Variables (default_color : Color) (default_label : string)
          (default_pType : PlottingType).
Context {T_x T_y : Type} `{!Numeric T_x, !Numeric T_y}.
Variables (xValues : list T_x) (yValues : list (list T_y)) (y0 : list T_y).
Variables (color : Color) (type : PlottingType) (labels : list string).

Local Abbreviation N := (length xValues).
Local Abbreviation M := (length y0).
Local Abbreviation dflt :=
  (PlotDataSet_default default_color default_label default_pType).
Local Abbreviation run :=
  (several_Y default_color default_label default_pType
     xValues yValues color type labels).
Local Abbreviation round data :=
  (λ (i : nat) (out : list PlotDataSet),
     row ← at_ data i;
     label ← label_or_empty (bool_decide (i < length labels)) labels i;
     d ← PlotDataSet_ctor xValues row color label type;
     assign out i d).

Hypothesis first_sample : yValues !! 0 = Some y0.

Lemma several_Y_rounds_cases (data : list (list float)) :
  transposed_upto yValues N M M data →
  (∃ out, for_int M (round data) (replicate N dflt) = Returned out ∧
          length out = N ∧ M ≤ N) ∨
  (∃ u, for_int M (round data) (replicate N dflt) = Undefined u).
Proof.
  intros [Hlen Hcols].
  destruct (for_int_cases (λ i out, length out = N ∧ i ≤ N) (round data) M
              (replicate N dflt)) as [(out & Hrun & Hout & HMN) | Hub];
    [| | left; by exists out | by right].
  - split; [by rewrite length_replicate | lia].
  - intros i out Hi [Hout HiN].
    destruct (Hcols i Hi) as (row & Hrow & Hrowlen & _).
    rewrite (at_lookup data i row Hrow). simpl.
    rewrite label_or_empty_positional. simpl.
    rewrite PlotDataSet_ctor_Returned by done. simpl.
    destruct (decide (i < N)) as [HiN' | HiN'].
    + left. rewrite assign_in_range by lia. eexists. split; [done |].
      rewrite length_insert. split; [done | lia].
    + right. exists OutOfRange. apply assign_out_of_range. lia.
Qed.

(** The three ways the path can end once [yValues[0]] exists. *)
Lemma several_Y_outcome :
  (N = 0 ∧ run = Thrown "Empty y value data") ∨
  (N ≠ 0 ∧ ∃ out, run = Returned out ∧ length out = N ∧ M ≤ N ∧
                  ∀ n s, n < N → s < M → is_Some (cell yValues n s)) ∨
  (N ≠ 0 ∧ ∃ u, run = Undefined u).
Proof.
  unfold several_Y. rewrite (at_lookup yValues 0 y0 first_sample). simpl.
  case_decide as HN; [by left | right].
  destruct (transpose_table_cases yValues N M) as [(data & -> & Hdata) | ->]; simpl.
  - destruct (several_Y_rounds_cases data Hdata) as [(out & -> & Hout & HMN) | [u ->]].
    + left. split; [done |]. exists out. repeat split; [done .. |].
      by apply (transposed_cells yValues N M data).
    + right. split; [done |]. by exists u.
  - right. split; [done |]. by exists OutOfRange.
Qed.

Lemma several_Y_ragged (n s : nat) :
  n < N → s < M → cell yValues n s = None → run = Undefined OutOfRange.
Proof.
  intros Hn Hs Hcell.
  unfold several_Y. rewrite (at_lookup yValues 0 y0 first_sample). simpl.
  rewrite decide_False by lia.
  destruct (transpose_table_cases yValues N M) as [(data & _ & Hdata) | ->]; [| done].
  destruct (transposed_cells yValues N M data Hdata n s Hn Hs) as [v Hv]. congruence.
Qed.

End Several_Y_any.

(** *** The nested-nested path on arbitrary input *)

Lemma label_or_empty_cases (in_range : bool) (labels : list string) (i : nat) :
  (∃ l, label_or_empty in_range labels i = Returned l) ∨
  label_or_empty in_range labels i = Undefined OutOfRange.
Proof.
  unfold label_or_empty, at_. destruct in_range; [| left; by eexists].
  destruct (labels !! i); [left; by eexists | by right].
Qed.

Section Several_XY_any.

Variables (default_color : Color) (default_label : string)
          (default_pType : PlottingType).
Context {T_x T_y : Type} `{!Numeric T_x, !Numeric T_y}.
Variables (xValues : list (list T_x)) (yValues : list (list T_y)) (y0 : list T_y).
Variables (color : Color) (type : PlottingType) (labels : list string).

Local Abbreviation N := (length xValues).
Local Abbreviation M := (length y0).
Local Abbreviation dflt :=
  (PlotDataSet_default default_color default_label default_pType).
Local Abbreviation run :=
  (several_XY default_color default_label default_pType
     xValues yValues color type labels).
Local Abbreviation round xdata ydata :=
  (λ (i : nat) (out : list PlotDataSet),
     xrow ← at_ xdata i;
     yrow ← at_ ydata i;
     label ← label_or_empty
                (bool_decide (Z.of_nat i < int_of_size_t (length labels))%Z) labels i;
     d ← PlotDataSet_ctor xrow yrow color label type;
     assign out i d).

Hypothesis first_sample : yValues !! 0 = Some y0.

Lemma several_XY_rounds_cases (xdata ydata : list (list float)) :
  transposed_upto xValues N M M xdata → transposed_upto yValues N M M ydata →
  (∃ out, for_int N (round xdata ydata) (replicate N dflt) = Returned out ∧
          length out = N ∧ N ≤ M) ∨
  (∃ u, for_int N (round xdata ydata) (replicate N dflt) = Undefined u).
Proof.
  intros [Hxlen Hxcols] [Hylen Hycols].
  destruct (for_int_cases (λ i out, length out = N ∧ i ≤ M) (round xdata ydata) N
              (replicate N dflt)) as [(out & Hrun & Hout & HNM) | Hub];
    [| | left; by exists out | by right].
  - split; [by rewrite length_replicate | lia].
  - intros i out Hi [Hout HiM]. cbv beta.
    destruct (decide (i < M)) as [HiM' | HiM'];
      [| right; exists OutOfRange; by rewrite (at_out_of_range xdata i) by lia].
    destruct (Hxcols i HiM') as (xrow & Hxrow & Hxrowlen & _).
    destruct (Hycols i HiM') as (yrow & Hyrow & Hyrowlen & _).
    rewrite (at_lookup xdata i xrow Hxrow). simpl.
    rewrite (at_lookup ydata i yrow Hyrow). simpl.
    destruct (label_or_empty_cases
                (bool_decide (Z.of_nat i < int_of_size_t (length labels))%Z) labels i)
      as [[l ->] | ->]; simpl; [| right; by exists OutOfRange].
    rewrite PlotDataSet_ctor_Returned by lia. simpl.
    left. rewrite assign_in_range by lia. eexists. split; [done |].
    rewrite length_insert. split; [done | lia].
Qed.

(** The three ways the path can end once [yValues[0]] exists. *)
Lemma several_XY_outcome :
  (length yValues ≠ N ∧
   run = Thrown "Mismatching dataset sizes for mutliplot, set dimension of Xmust be one, or match set dimension of Y") ∨
  (length yValues = N ∧
   ∃ out, run = Returned out ∧ length out = N ∧ N ≤ M ∧
          ∀ n s, n < N → s < M →
                 is_Some (cell xValues n s) ∧ is_Some (cell yValues n s)) ∨
  (length yValues = N ∧ ∃ u, run = Undefined u).
Proof.
  unfold several_XY. rewrite (at_lookup yValues 0 y0 first_sample). simpl.
  case_decide as HN; [by left | right].
  destruct (transpose_tables_cases xValues yValues N M)
    as [(xdata & ydata & -> & Hx & Hy) | ->]; simpl.
  - destruct (several_XY_rounds_cases xdata ydata Hx Hy)
      as [(out & -> & Hout & HNM) | [u ->]].
    + left. split; [done |]. exists out. repeat split; [done .. | |].
      * by apply (transposed_cells xValues N M xdata).
      * by apply (transposed_cells yValues N M ydata).
    + right. split; [done |]. by exists u.
  - right. split; [done |]. by exists OutOfRange.
Qed.

Lemma several_XY_ragged (n s : nat) :
  length yValues = N → n < N → s < M →
  cell xValues n s = None ∨ cell yValues n s = None →
  run = Undefined OutOfRange.
Proof.
  intros Houter Hn Hs Hcell.
  unfold several_XY. rewrite (at_lookup yValues 0 y0 first_sample). simpl.
  rewrite decide_False by (by intros []).
  destruct (transpose_tables_cases xValues yValues N M)
    as [(xdata & ydata & _ & Hx & Hy) | ->]; [| done].
  destruct (transposed_cells xValues N M xdata Hx n s Hn Hs) as [xv Hxv].
  destruct (transposed_cells yValues N M ydata Hy n s Hn Hs) as [yv Hyv].
  destruct Hcell; congruence.
Qed.

(** More samples than series: the final loop reaches round [M], whatever
    the labels, and reads row [M] of the tables. *)
Lemma several_XY_rounds_overrun (xdata ydata : list (list float)) (m : nat) :
  transposed_upto xValues N M M xdata → transposed_upto yValues N M M ydata →
  M < N → M < m →
  iterate (round xdata ydata) 0 m (replicate N dflt) = Undefined OutOfRange.
Proof.
  intros [Hxlen Hxcols] [Hylen Hycols] HMN Hm.
  destruct (iterate_cases (eq OutOfRange) (λ i out, length out = N ∧ i ≤ M)
              (round xdata ydata) 0 m (replicate N dflt))
    as [(out & _ & _ & HmM) | (u & Hu & <-)]; [| | lia | done].
  - split; [by rewrite length_replicate | lia].
  - intros i out _ [Hout HiM]. cbv beta.
    destruct (decide (i < M)) as [HiM' | HiM'];
      [| right; exists OutOfRange; by rewrite (at_out_of_range xdata i) by lia].
    destruct (Hxcols i HiM') as (xrow & Hxrow & Hxrowlen & _).
    destruct (Hycols i HiM') as (yrow & Hyrow & Hyrowlen & _).
    rewrite (at_lookup xdata i xrow Hxrow). simpl.
    rewrite (at_lookup ydata i yrow Hyrow). simpl.
    destruct (label_or_empty_cases
                (bool_decide (Z.of_nat i < int_of_size_t (length labels))%Z) labels i)
      as [[l ->] | ->]; simpl; [| right; by exists OutOfRange].
    rewrite PlotDataSet_ctor_Returned by lia. simpl.
    left. rewrite assign_in_range by lia. eexists. split; [done |].
    rewrite length_insert. split; [done | lia].
Qed.

Lemma several_XY_overruns_any_labels :
  length yValues = N → (Z.of_nat M ≤ INT_MAX)%Z → M < N →
  run = Undefined OutOfRange.
Proof.
  intros Houter Hint HMN.
  unfold several_XY. rewrite (at_lookup yValues 0 y0 first_sample). simpl.
  rewrite decide_False by (by intros []).
  destruct (transpose_tables_cases xValues yValues N M)
    as [(xdata & ydata & -> & Hx & Hy) | ->]; simpl; [| done].
  unfold for_int. case_decide as HN.
  - by apply several_XY_rounds_overrun.
  - rewrite several_XY_rounds_overrun; [done .. |]. unfold INT_MAX in *. lia.
Qed.

End Several_XY_any.

(** *** How a call can end *)

Lemma one_dataset_label (labels : list string) :
  label_or_empty (bool_decide (labels ≠ [])) labels 0
    = Returned (match labels with [] => "" | l0 :: _ => l0 end).
Proof. by destruct labels. Qed.

Lemma one_dataset_mismatch {T_x T_y : Type} `{!Numeric T_x, !Numeric T_y}
    (xValues : list T_x) (yValues : list T_y) color type labels :
  length xValues ≠ length yValues →
  one_dataset xValues yValues color type labels
  = Exited ("Incompatible data sizes" +:+ endl) 1.
Proof.
  intros Hne. unfold one_dataset. rewrite one_dataset_label. simpl.
  unfold PlotDataSet_ctor. rewrite decide_True; [done |]. by rewrite !length_fmap.
Qed.

(** A length mismatch between flat x and flat y reaches the constructor's
    check through the builder: the call prints the diagnostic and exits
    with status 1, whatever the labels. *)
Theorem MultiPlotDatSet_flat_flat_mismatch_exits
    default_color default_label default_pType
    {T_x T_y : Type} `{!Numeric T_x, !Numeric T_y}
    (xValues : list T_x) (yValues : list T_y) color type labels :
  length xValues ≠ length yValues →
  MultiPlotDatSet default_color default_label default_pType
    (Flat xValues) (Flat yValues) color type labels
  = Exited ("Incompatible data sizes" +:+ endl) 1.
Proof.
  intros Hne. simpl. by apply one_dataset_mismatch.
Qed.

Lemma MultiPlotDatSet_flat_flat_mismatch_exits_witness :
  MultiPlotDatSet {| col_r := 255; col_g := 255; col_b := 255; col_a := 255 |} "" POINTS
    (Flat [1; 2; 3]%Z) (Flat [10; 11]%Z)
    {| col_r := 255; col_g := 0; col_b := 0; col_a := 255 |} LINE ["a"]
  = Exited ("Incompatible data sizes" +:+ endl) 1.
Proof.
  apply (MultiPlotDatSet_flat_flat_mismatch_exits _ _ _ (T_x := int) (T_y := int)).
  simpl. lia.
Defined.

(** The builder exits the process only on flat x and flat y of different
    lengths: with a nested argument no input, however ragged, makes it
    exit. *)
Theorem MultiPlotDatSet_exits_only_flat_flat
    default_color default_label default_pType
    {T_x T_y : Type} `{!Numeric T_x, !Numeric T_y}
    (xValues : values T_x) (yValues : values T_y) color type labels cerr status :
  MultiPlotDatSet default_color default_label default_pType
    xValues yValues color type labels = Exited cerr status →
  ∃ x y, xValues = Flat x ∧ yValues = Flat y ∧ length x ≠ length y ∧
         cerr = "Incompatible data sizes" +:+ endl ∧ status = 1%Z.
Proof.
  destruct yValues as [y | y], xValues as [x | x]; simpl.
  - destruct (decide (length x = length y)) as [Heq | Hne].
    + unfold one_dataset. rewrite one_dataset_label. simpl.
      by rewrite PlotDataSet_ctor_Returned.
    + rewrite (one_dataset_mismatch x y) by done.
      intros [= <- <-]. by exists x, y.
  - done.
  - destruct y as [| y0 y]; [done |].
    destruct (several_Y_outcome default_color default_label default_pType
                x (y0 :: y) y0 color type labels eq_refl)
      as [[_ ->] | [(_ & out & -> & _) | (_ & u & ->)]]; done.
  - destruct y as [| y0 y]; [done |].
    destruct (several_XY_outcome default_color default_label default_pType
                x (y0 :: y) y0 color type labels eq_refl)
      as [[_ ->] | [(_ & out & -> & _) | (_ & u & ->)]]; done.
Qed.

Lemma MultiPlotDatSet_exits_only_flat_flat_witness :
  ∃ x y, Flat [1; 2; 3]%Z = Flat x ∧ Flat [10; 11]%Z = Flat y ∧
         length x ≠ length y ∧
         "Incompatible data sizes" +:+ endl = "Incompatible data sizes" +:+ endl ∧
         1%Z = 1%Z.
Proof.
  apply (MultiPlotDatSet_exits_only_flat_flat
           {| col_r := 255; col_g := 255; col_b := 255; col_a := 255 |} "" POINTS
           (T_x := int) (T_y := int) (Flat [1; 2; 3]%Z) (Flat [10; 11]%Z)
           {| col_r := 255; col_g := 0; col_b := 0; col_a := 255 |} LINE []).
  reflexivity.
Defined.

(** The builder throws only its two documented errors, each on its own
    path: the empty-data error with a flat, empty xValues, and the
    dimension error with nested xValues and yValues of different outer
    lengths; in both cases yValues is nested and not empty. *)
Theorem MultiPlotDatSet_throws_only
    default_color default_label default_pType
    {T_x T_y : Type} `{!Numeric T_x, !Numeric T_y}
    (xValues : values T_x) (yValues : values T_y) color type labels what :
  MultiPlotDatSet default_color default_label default_pType
    xValues yValues color type labels = Thrown what →
  ∃ y, yValues = Nested y ∧ y ≠ [] ∧
       ((xValues = Flat [] ∧ what = "Empty y value data") ∨
        (∃ x, xValues = Nested x ∧ length x ≠ length y ∧
              what = "Mismatching dataset sizes for mutliplot, set dimension of Xmust be one, or match set dimension of Y")).
Proof.
  destruct yValues as [y | y], xValues as [x | x]; simpl.
  - unfold one_dataset. rewrite one_dataset_label. simpl.
    unfold PlotDataSet_ctor. by case_decide.
  - done.
  - destruct y as [| y0 y]; [done |].
    destruct (several_Y_outcome default_color default_label default_pType
                x (y0 :: y) y0 color type labels eq_refl)
      as [[HN ->] | [(_ & out & -> & _) | (_ & u & ->)]]; [| done ..].
    intros [= <-]. exists (y0 :: y). split; [done |]. split; [done |]. left.
    by destruct x.
  - destruct y as [| y0 y]; [done |].
    destruct (several_XY_outcome default_color default_label default_pType
                x (y0 :: y) y0 color type labels eq_refl)
      as [[HN ->] | [(_ & out & -> & _) | (_ & u & ->)]]; [| done ..].
    intros [= <-]. exists (y0 :: y). split; [done |]. split; [done |]. right.
    exists x. split; [done |]. split; [| done]. by intros E; apply HN.
Qed.

Lemma MultiPlotDatSet_throws_only_witness :
  ∃ y, Nested [[10; 20]]%Z = Nested y ∧ y ≠ [] ∧
       ((Flat ([] : list int) = Flat [] ∧ "Empty y value data" = "Empty y value data") ∨
        (∃ x, Flat ([] : list int) = Nested x ∧ length x ≠ length y ∧
              "Empty y value data" = "Mismatching dataset sizes for mutliplot, set dimension of Xmust be one, or match set dimension of Y")).
Proof.
  apply (MultiPlotDatSet_throws_only
           {| col_r := 255; col_g := 255; col_b := 255; col_a := 255 |} "" POINTS
           (T_x := int) (T_y := int) (Flat []) (Nested [[10; 20]]%Z)
           {| col_r := 255; col_g := 0; col_b := 0; col_a := 255 |} LINE []).
  reflexivity.
Defined.

Lemma several_XY_mismatch_throws_witness :
  MultiPlotDatSet {| col_r := 255; col_g := 255; col_b := 255; col_a := 255 |} "" POINTS
    (Nested [[1; 1]; [2; 2]; [3; 3]]%Z) (Nested [[10; 20]; [11; 21]]%Z)
    {| col_r := 255; col_g := 0; col_b := 0; col_a := 255 |} LINE []
  = Thrown "Mismatching dataset sizes for mutliplot, set dimension of Xmust be one, or match set dimension of Y".
Proof.
  apply (several_XY_mismatch_throws _ _ _ (T_x := int) (T_y := int)).
  simpl. lia.
Defined.

(** *** The scalar-nested path, whatever the table *)

(** A table with a missing value, a sample among the first N that is
    absent or holds fewer than M values, makes the transposition read out
    of range. *)
Theorem MultiPlotDatSet_flat_nested_ragged
    default_color default_label default_pType
    {T_x T_y : Type} `{!Numeric T_x, !Numeric T_y}
    (xValues : list T_x) (yValues : list (list T_y)) (y0 : list T_y)
    color type labels (n s : nat) :
  yValues !! 0 = Some y0 →
  n < length xValues → s < length y0 → cell yValues n s = None →
  MultiPlotDatSet default_color default_label default_pType
    (Flat xValues) (Nested yValues) color type labels = Undefined OutOfRange.
Proof.
  intros Hy0 Hn Hs Hcell. simpl.
  by apply (several_Y_ragged _ _ _ _ _ y0 _ _ _ Hy0 n s).
Qed.

Lemma MultiPlotDatSet_flat_nested_ragged_witness :
  MultiPlotDatSet {| col_r := 255; col_g := 255; col_b := 255; col_a := 255 |} "" POINTS
    (Flat [1; 2]%Z) (Nested [[10; 20]; [11]]%Z)
    {| col_r := 255; col_g := 0; col_b := 0; col_a := 255 |} LINE []
  = Undefined OutOfRange.
Proof.
  apply (MultiPlotDatSet_flat_nested_ragged _ _ _ (T_x := int) (T_y := int)
           [1; 2]%Z [[10; 20]; [11]]%Z [10; 20]%Z _ _ _ 1 1).
  - reflexivity.
  - simpl. lia.
  - simpl. lia.
  - reflexivity.
Defined.

(** Whenever the scalar-nested path returns, on any input, the result has
    exactly |xValues| entries, xValues is not empty, the series count
    M = |yValues[0]| is at most |xValues|, and the table holds a value in
    every cell of its first |xValues| samples and M series. *)
Theorem MultiPlotDatSet_flat_nested_returned
    default_color default_label default_pType
    {T_x T_y : Type} `{!Numeric T_x, !Numeric T_y}
    (xValues : list T_x) (yValues : list (list T_y)) color type labels out :
  MultiPlotDatSet default_color default_label default_pType
    (Flat xValues) (Nested yValues) color type labels = Returned out →
  length out = length xValues ∧ xValues ≠ [] ∧
  ∃ y0, yValues !! 0 = Some y0 ∧ length y0 ≤ length xValues ∧
        ∀ n s, n < length xValues → s < length y0 → is_Some (cell yValues n s).
Proof.
  simpl. destruct yValues as [| y0 y]; [done |].
  destruct (several_Y_outcome default_color default_label default_pType
              xValues (y0 :: y) y0 color type labels eq_refl)
    as [[_ ->] | [(HN & out' & -> & Hlen & HMN & Hcells) | (_ & u & ->)]]; [done | | done].
  intros [= <-]. split; [done |]. split; [by destruct xValues |].
  by exists y0.
Qed.

Lemma MultiPlotDatSet_flat_nested_returned_witness :
  length [ {| _yValues := to_float <$> [10; 11]%Z; _xValues := to_float <$> [1; 2]%Z;
              _color := {| col_r := 255; col_g := 0; col_b := 0; col_a := 255 |};
              _label := "a"; _pType := LINE |};
           PlotDataSet_default
             {| col_r := 255; col_g := 255; col_b := 255; col_a := 255 |} "" POINTS ]
    = length [1; 2]%Z ∧
  [1; 2]%Z ≠ [] ∧
  ∃ y0, [[10]; [11]]%Z !! 0 = Some y0 ∧ length y0 ≤ length [1; 2]%Z ∧
        ∀ n s, n < length [1; 2]%Z → s < length y0 →
               is_Some (cell [[10]; [11]]%Z n s).
Proof.
  apply (MultiPlotDatSet_flat_nested_returned
           {| col_r := 255; col_g := 255; col_b := 255; col_a := 255 |} "" POINTS
           (T_x := int) (T_y := int) [1; 2]%Z [[10]; [11]]%Z
           {| col_r := 255; col_g := 0; col_b := 0; col_a := 255 |} LINE ["a"]).
  reflexivity.
Defined.

(** With an empty first sample there is no series: for a non-empty
    xValues the path returns |xValues| default-constructed data sets,
    whatever the other samples hold. *)
Theorem MultiPlotDatSet_flat_nested_empty_first_sample
    default_color default_label default_pType
    {T_x T_y : Type} `{!Numeric T_x, !Numeric T_y}
    (xValues : list T_x) (yValues : list (list T_y)) color type labels :
  xValues ≠ [] →
  MultiPlotDatSet default_color default_label default_pType
    (Flat xValues) (Nested ([] :: yValues)) color type labels
  = Returned (replicate (length xValues)
                (PlotDataSet_default default_color default_label default_pType)).
Proof.
  intros Hx. simpl. unfold several_Y. simpl.
  rewrite decide_False by (by destruct xValues). reflexivity.
Qed.

Lemma MultiPlotDatSet_flat_nested_empty_first_sample_witness :
  MultiPlotDatSet {| col_r := 255; col_g := 255; col_b := 255; col_a := 255 |} "" POINTS
    (Flat [1; 2]%Z) (Nested [[]; [11; 21]]%Z)
    {| col_r := 255; col_g := 0; col_b := 0; col_a := 255 |} LINE ["a"]
  = Returned (replicate (length [1; 2]%Z)
                (PlotDataSet_default
                   {| col_r := 255; col_g := 255; col_b := 255; col_a := 255 |} "" POINTS)).
Proof.
  apply (MultiPlotDatSet_flat_nested_empty_first_sample _ _ _ (T_x := int) (T_y := int)).
  discriminate.
Defined.

(** *** The nested-nested path, as the code has it *)

(** For tables of N samples with at least M = |yValues[0]| values each,
    N within the range of the [int] counter and fewer than 2^31 labels:
    with N <= M the path returns exactly N containers, container s
    pairing the values xValues[n][s] with yValues[n][s] under the
    positional label; the series N .. M-1 are not returned. *)
Theorem MultiPlotDatSet_nested_nested_returns
    default_color default_label default_pType
    {T_x T_y : Type} `{!Numeric T_x, !Numeric T_y}
    (xValues : list (list T_x)) (yValues : list (list T_y)) (y0 : list T_y)
    color type labels :
  yValues !! 0 = Some y0 →
  length yValues = length xValues →
  Forall (λ row, length y0 ≤ length row) xValues →
  Forall (λ row, length y0 ≤ length row) yValues →
  (Z.of_nat (length labels) ≤ INT_MAX)%Z →
  (Z.of_nat (length xValues) ≤ INT_MAX)%Z →
  length xValues ≤ length y0 →
  ∃ out,
    MultiPlotDatSet default_color default_label default_pType
      (Nested xValues) (Nested yValues) color type labels = Returned out ∧
    length out = length xValues ∧
    ∀ s, s < length xValues →
         ∃ d, out !! s = Some d ∧
              is_paired_series xValues yValues color type labels s d.
Proof.
  intros Hy0 Houter Hxrows Hyrows Hlabels Hint HNM. simpl.
  by apply (several_XY_returns _ _ _ _ _ y0).
Qed.

Lemma MultiPlotDatSet_nested_nested_returns_witness :
  ∃ out,
    MultiPlotDatSet {| col_r := 255; col_g := 255; col_b := 255; col_a := 255 |} "" POINTS
      (Nested [[1; 1; 1]; [2; 2; 2]]%Z) (Nested [[10; 20; 30]; [11; 21; 31]]%Z)
      {| col_r := 255; col_g := 0; col_b := 0; col_a := 255 |} LINE ["a"]
      = Returned out ∧
    length out = length [[1; 1; 1]; [2; 2; 2]]%Z ∧
    ∀ s, s < length [[1; 1; 1]; [2; 2; 2]]%Z →
         ∃ d, out !! s = Some d ∧
              is_paired_series [[1; 1; 1]; [2; 2; 2]]%Z [[10; 20; 30]; [11; 21; 31]]%Z
                {| col_r := 255; col_g := 0; col_b := 0; col_a := 255 |} LINE ["a"] s d.
Proof.
  apply (MultiPlotDatSet_nested_nested_returns _ _ _ (T_x := int) (T_y := int)
           [[1; 1; 1]; [2; 2; 2]]%Z [[10; 20; 30]; [11; 21; 31]]%Z [10; 20; 30]%Z).
  - reflexivity.
  - reflexivity.
  - repeat constructor.
  - repeat constructor.
  - simpl. unfold INT_MAX. lia.
  - simpl. unfold INT_MAX. lia.
  - simpl. lia.
Defined.

(** For such tables with more samples than series (M < N), round M of
    the final loop reads row M of the M-row transposed tables: the call
    is an out-of-range access. *)
Theorem MultiPlotDatSet_nested_nested_overruns
    default_color default_label default_pType
    {T_x T_y : Type} `{!Numeric T_x, !Numeric T_y}
    (xValues : list (list T_x)) (yValues : list (list T_y)) (y0 : list T_y)
    color type labels :
  yValues !! 0 = Some y0 →
  length yValues = length xValues →
  Forall (λ row, length y0 ≤ length row) xValues →
  Forall (λ row, length y0 ≤ length row) yValues →
  (Z.of_nat (length y0) ≤ INT_MAX)%Z →
  length y0 < length xValues →
  MultiPlotDatSet default_color default_label default_pType
    (Nested xValues) (Nested yValues) color type labels = Undefined OutOfRange.
Proof.
  intros Hy0 Houter Hxrows Hyrows Hint HMN. simpl.
  by apply (several_XY_overruns_any_labels _ _ _ _ _ y0).
Qed.

Lemma MultiPlotDatSet_nested_nested_overruns_witness :
  MultiPlotDatSet {| col_r := 255; col_g := 255; col_b := 255; col_a := 255 |} "" POINTS
    (Nested [[1]; [2]; [3]]%Z) (Nested [[10]; [11]; [12]]%Z)
    {| col_r := 255; col_g := 0; col_b := 0; col_a := 255 |} LINE ["a"]
  = Undefined OutOfRange.
Proof.
  apply (MultiPlotDatSet_nested_nested_overruns _ _ _ (T_x := int) (T_y := int)
           [[1]; [2]; [3]]%Z [[10]; [11]; [12]]%Z [10]%Z).
  - reflexivity.
  - reflexivity.
  - repeat constructor.
  - repeat constructor.
  - simpl. unfold INT_MAX. lia.
  - simpl. lia.
Defined.

(** With equal outer lengths, a missing value in either table, among the
    first M values of a sample, makes the transposition read out of
    range. *)
Theorem MultiPlotDatSet_nested_nested_ragged
    default_color default_label default_pType
    {T_x T_y : Type} `{!Numeric T_x, !Numeric T_y}
    (xValues : list (list T_x)) (yValues : list (list T_y)) (y0 : list T_y)
    color type labels (n s : nat) :
  yValues !! 0 = Some y0 →
  length yValues = length xValues →
  n < length xValues → s < length y0 →
  cell xValues n s = None ∨ cell yValues n s = None →
  MultiPlotDatSet default_color default_label default_pType
    (Nested xValues) (Nested yValues) color type labels = Undefined OutOfRange.
Proof.
  intros Hy0 Houter Hn Hs Hcell. simpl.
  by apply (several_XY_ragged _ _ _ _ _ y0 _ _ _ Hy0 n s).
Qed.

Lemma MultiPlotDatSet_nested_nested_ragged_witness :
  MultiPlotDatSet {| col_r := 255; col_g := 255; col_b := 255; col_a := 255 |} "" POINTS
    (Nested [[1; 1]; [2]]%Z) (Nested [[10; 20]; [11; 21]]%Z)
    {| col_r := 255; col_g := 0; col_b := 0; col_a := 255 |} LINE []
  = Undefined OutOfRange.
Proof.
  apply (MultiPlotDatSet_nested_nested_ragged _ _ _ (T_x := int) (T_y := int)
           [[1; 1]; [2]]%Z [[10; 20]; [11; 21]]%Z [10; 20]%Z _ _ _ 1 1).
  - reflexivity.
  - reflexivity.
  - simpl. lia.
  - simpl. lia.
  - left. reflexivity.
Defined.

(** Whenever the nested-nested path returns, on any input, the result
    has exactly |xValues| entries, the outer lengths agree, the sample
    count is at most the series count M = |yValues[0]|, and both tables
    hold a value in every cell of their |xValues| samples and M
    series. *)
Theorem MultiPlotDatSet_nested_nested_returned
    default_color default_label default_pType
    {T_x T_y : Type} `{!Numeric T_x, !Numeric T_y}
    (xValues : list (list T_x)) (yValues : list (list T_y)) color type labels out :
  MultiPlotDatSet default_color default_label default_pType
    (Nested xValues) (Nested yValues) color type labels = Returned out →
  length out = length xValues ∧ length yValues = length xValues ∧
  ∃ y0, yValues !! 0 = Some y0 ∧ length xValues ≤ length y0 ∧
        ∀ n s, n < length xValues → s < length y0 →
               is_Some (cell xValues n s) ∧ is_Some (cell yValues n s).
Proof.
  simpl. destruct yValues as [| y0 y]; [done |].
  destruct (several_XY_outcome default_color default_label default_pType
              xValues (y0 :: y) y0 color type labels eq_refl)
    as [[_ ->] | [(HN & out' & -> & Hlen & HNM & Hcells) | (_ & u & ->)]]; [done | | done].
  intros [= <-]. split; [done |]. split; [done |]. by exists y0.
Qed.

Lemma MultiPlotDatSet_nested_nested_returned_witness :
  length [ {| _yValues := to_float <$> [10]%Z; _xValues := to_float <$> [1]%Z;
              _color := {| col_r := 255; col_g := 0; col_b := 0; col_a := 255 |};
              _label := "a"; _pType := LINE |} ]
    = length [[1; 5]]%Z ∧
  length [[10; 20]]%Z = length [[1; 5]]%Z ∧
  ∃ y0, [[10; 20]]%Z !! 0 = Some y0 ∧ length [[1; 5]]%Z ≤ length y0 ∧
        ∀ n s, n < length [[1; 5]]%Z → s < length y0 →
               is_Some (cell [[1; 5]]%Z n s) ∧ is_Some (cell [[10; 20]]%Z n s).
Proof.
  apply (MultiPlotDatSet_nested_nested_returned
           {| col_r := 255; col_g := 255; col_b := 255; col_a := 255 |} "" POINTS
           (T_x := int) (T_y := int) [[1; 5]]%Z [[10; 20]]%Z
           {| col_r := 255; col_g := 0; col_b := 0; col_a := 255 |} LINE ["a"]).
  reflexivity.
Defined.

(** *** What the scalar-nested path never reads *)

Lemma iterate_ext {St} (body body' : nat → St → outcome St) (i n : nat) (s : St) :
  (∀ k t, i ≤ k < i + n → body k t = body' k t) →
  iterate body i n s = iterate body' i n s.
Proof.
  revert i s. induction n as [| n IH]; intros i s Hext; simpl; [done |].
  rewrite <- (Hext i s) by lia. destruct (body i s); simpl; [| done ..].
  apply IH. intros k t Hk. apply Hext. lia.
Qed.

Lemma at_take {A} (v : list A) (n i : nat) :
  i < n → at_ (take n v) i = at_ v i.
Proof. intros Hi. unfold at_. by rewrite lookup_take_lt. Qed.

(** Samples of yValues past the length of the x axis are never read: for
    a non-empty xValues the call ends as it does on the first |xValues|
    samples alone. *)
Theorem MultiPlotDatSet_flat_nested_extra_samples
    default_color default_label default_pType
    {T_x T_y : Type} `{!Numeric T_x, !Numeric T_y}
    (xValues : list T_x) (yValues : list (list T_y)) color type labels :
  xValues ≠ [] →
  MultiPlotDatSet default_color default_label default_pType
    (Flat xValues) (Nested yValues) color type labels
  = MultiPlotDatSet default_color default_label default_pType
      (Flat xValues) (Nested (take (length xValues) yValues)) color type labels.
Proof.
  intros Hx. assert (0 < length xValues) as HN by (destruct xValues; [done | simpl; lia]).
  simpl. unfold several_Y. rewrite (at_take yValues (length xValues) 0) by done.
  destruct (at_ yValues 0) as [y0 | | |]; simpl; [| done ..].
  case_decide; [done |]. f_equal. unfold for_size_t at 1 3.
  apply iterate_ext. intros i data _.
  destruct (assign data i (replicate (length xValues) float_zero)); simpl; [| done ..].
  unfold for_size_t. apply iterate_ext. intros j d [_ Hj].
  by rewrite (at_take yValues (length xValues) j) by lia.
Qed.

Lemma MultiPlotDatSet_flat_nested_extra_samples_witness :
  MultiPlotDatSet {| col_r := 255; col_g := 255; col_b := 255; col_a := 255 |} "" POINTS
    (Flat [1; 2]%Z) (Nested [[10]; [11]; [12; 13; 14]]%Z)
    {| col_r := 255; col_g := 0; col_b := 0; col_a := 255 |} LINE ["a"]
  = MultiPlotDatSet {| col_r := 255; col_g := 255; col_b := 255; col_a := 255 |} "" POINTS
      (Flat [1; 2]%Z) (Nested (take (length [1; 2]%Z) [[10]; [11]; [12; 13; 14]]%Z))
      {| col_r := 255; col_g := 0; col_b := 0; col_a := 255 |} LINE ["a"].
Proof.
  apply (MultiPlotDatSet_flat_nested_extra_samples _ _ _ (T_x := int) (T_y := int)).
  discriminate.
Defined.
